(** * Dependency visualizer: the resolver, the DOT serializer and the render pipeline

    A shallow embedding of [src/index.js]: [getDependencies], [generateDotGraph]
    and [generateImageFromDot], with the JavaScript features they rely on
    (truthiness, property reads, [Object.entries], exceptions and [try]/[catch],
    the callback queue of [child_process.exec]) written out as Rocq functions. *)

From Stdlib Require Import List String Ascii ZArith NArith Lia Bool Arith.
From Stdlib Require Import DecimalString DecimalNat Permutation Sorted.
Import ListNotations.

Local Open Scope string_scope.
Local Open Scope list_scope.

Infix "+:+" := String.append (at level 60, right associativity).

#[local] Set Warnings "-register-all".

(** ** JavaScript data *)

(** A number as this program meets it: [parseInt] yields an integer or [NaN],
    and the only test made on a number read from a response is its truthiness
    (a non-integral double behaves there as any non-zero integer). *)
Inductive number : Type :=
| NaN
| Num (z : Z).

(** Values that a response of the registry (or a test double of it) delivers.
    [VObj] lists the own enumerable properties in creation order; the keys of
    one object are distinct. *)
Inductive value : Type :=
| VUndefined
| VNull
| VBool (b : bool)
| VNum (n : number)
| VStr (s : string)
| VArr (items : list value)
| VObj (props : list (string * value)).

(** The empty object literal [{}]. *)
Definition empty_object : value := VObj [].

(** ToBoolean. *)
Definition truthy (v : value) : bool :=
  match v with
  | VUndefined | VNull => false
  | VBool b => b
  | VNum NaN => false
  | VNum (Num z) => negb (z =? 0)%Z
  | VStr s => negb (s =? EmptyString)%string
  | VArr _ | VObj _ => true
  end.

(** [a || b]. *)
Definition js_or (a b : value) : value := if truthy a then a else b.

(** [depth > maxDepth], with the depth counter an integer: a comparison with
    [NaN] is false. *)
Definition gt (depth : Z) (maxDepth : number) : bool :=
  match maxDepth with
  | NaN => false
  | Num m => (depth >? m)%Z
  end.

(** An [Error] object: what [throw] carries and what [error.message] reads. *)
Record Error : Type := mkError { error_name : string; message : string }.

Definition TypeError (msg : string) : Error := mkError "TypeError" msg.

(** The decimal text of an index, as property keys spell it. *)
Definition index_key (i : nat) : string := NilEmpty.string_of_uint (Nat.to_uint i).

(** *** Property order of [Object.entries]

    Own keys that are array indices (canonical decimal numerals below
    [2^32 - 1]) come first, in ascending numeric order; the other string keys
    follow in creation order. *)

Definition digit_of (c : ascii) : option N :=
  let n := N_of_ascii c in
  if ((48 <=? n) && (n <=? 57))%N then Some (n - 48)%N else None.

Fixpoint parse_digits (s : string) (acc : N) : option N :=
  match s with
  | EmptyString => Some acc
  | String c rest =>
      match digit_of c with
      | Some d => parse_digits rest (acc * 10 + d)%N
      | None => None
      end
  end.

Definition array_index (key : string) : option N :=
  match key with
  | EmptyString => None
  | String c rest =>
      if (Ascii.eqb c "0"%char && negb (rest =? EmptyString)%string)%bool then None
      else match parse_digits key 0%N with
           | Some n => if (n <? 4294967295)%N then Some n else None
           | None => None
           end
  end.

Fixpoint insert_by_index (p : N * (string * value)) (sorted : list (N * (string * value)))
  : list (N * (string * value)) :=
  match sorted with
  | [] => [p]
  | q :: rest => if (fst p <? fst q)%N then p :: q :: rest else q :: insert_by_index p rest
  end.

Fixpoint index_props (props : list (string * value)) : list (N * (string * value)) :=
  match props with
  | [] => []
  | kv :: rest =>
      match array_index (fst kv) with
      | Some n => insert_by_index (n, kv) (index_props rest)
      | None => index_props rest
      end
  end.

Definition named_props (props : list (string * value)) : list (string * value) :=
  filter (fun kv => match array_index (fst kv) with Some _ => false | None => true end) props.

Definition own_props (props : list (string * value)) : list (string * value) :=
  map snd (index_props props) ++ named_props props.

(** The characters (code units) of a string, each as a one-character string
    value. *)
Fixpoint chars (s : string) : list value :=
  match s with
  | EmptyString => []
  | String c rest => VStr (String c EmptyString) :: chars rest
  end.

Fixpoint indexed (i : nat) (items : list value) : list (string * value) :=
  match items with
  | [] => []
  | v :: rest => (index_key i, v) :: indexed (S i) rest
  end.

(** ** Effects

    The program talks to the registry ([axios.get]), the file system
    ([fs.writeFileSync]), the shell ([child_process.exec]) and the console.
    What the outside answers is not the program's choice: it is an oracle over
    an environment state, which may answer differently at each call (as the
    tests' [mockResolvedValueOnce] does). *)

Inductive event : Type :=
| HttpGet (url : string)
| WriteFile (path data encoding : string)
| Exec (command : string)
| ConsoleLog (args : list string)
| ConsoleError (args : list string).

(** How a promise settles. *)
Inductive settled : Type :=
| Fulfilled (response : value)
| Rejected (reason : Error).

(** What the callback of [exec] receives. *)
Record exec_result : Type := mkExecResult {
  exec_error : option Error;
  exec_stdout : string;
  exec_stderr : string
}.

(** How a computation ends. [OutOfFuel] is the model's own: the recursion was
    cut before the program was done. It is not an exception of the program and
    no [catch] sees it. *)
Inductive outcome (A : Type) : Type :=
| Returned (a : A)
| Thrown (e : Error)
| OutOfFuel.

Arguments Returned {A} a.
Arguments Thrown {A} e.
Arguments OutOfFuel {A}.

Inductive DependencyNode : Type :=
| mkNode (name : string) (dependencies : list DependencyNode).

Definition name (n : DependencyNode) : string := let (s, _) := n in s.
Definition dependencies (n : DependencyNode) : list DependencyNode := let (_, d) := n in d.

(** The two callbacks handed to [exec], each by the variables it closes over. *)
Inductive callback : Type :=
| SvgDone (outputFilePath svgFilePath : string)
| PngDone (pngFilePath : string).

(** The double quote and the line feed of the template literals. *)
Definition dquote : string := String "034"%char EmptyString.
Definition newline : string := String "010"%char EmptyString.

(** ** The serializer *)

(** The inner [addDependencies(dep, parent)] of [generateDotGraph]. It appends
    to the variable [graph] of the enclosing call, which is threaded here. *)
Fixpoint addDependencies (dep : DependencyNode) (parent : string) (graph : string) : string :=
  match dep with
  | mkNode dep_name dep_dependencies =>
      let graph :=
        graph +:+ "  " +:+ dquote +:+ parent +:+ dquote +:+ " -> "
              +:+ dquote +:+ dep_name +:+ dquote +:+ ";" +:+ newline in
      fold_left (fun graph subDep => addDependencies subDep dep_name graph)
                dep_dependencies graph
  end.

(** [generateDotGraph(dependencies, packageName)]. *)
Definition generateDotGraph (dependencies : list DependencyNode) (packageName : string) : string :=
  let graph := "digraph " +:+ packageName +:+ " {" +:+ newline in
  let graph := fold_left (fun graph dep => addDependencies dep packageName graph) dependencies graph in
  let graph := graph +:+ "}" +:+ newline in
  graph.

(** ** Computations

    A computation runs in a state (the environment, the trace of what the
    program did to the outside, the callbacks waiting for their process) and
    ends in an [outcome]. The state survives an exception, as it does in the
    program. *)

Section Effects.

Variable W : Type.

Record state : Type := mkState {
  world : W;
  trace : list event;
  pending : list (string * callback)
}.

Definition M (A : Type) : Type := state -> outcome A * state.

Definition ret {A} (a : A) : M A := fun st => (Returned a, st).

Definition bind {A B} (m : M A) (k : A -> M B) : M B :=
  fun st =>
    match m st with
    | (Returned a, st') => k a st'
    | (Thrown e, st') => (Thrown e, st')
    | (OutOfFuel, st') => (OutOfFuel, st')
    end.

Definition throw {A} (e : Error) : M A := fun st => (Thrown e, st).

Definition out_of_fuel {A} : M A := fun st => (OutOfFuel, st).

(** [try { body } catch (error) { handler }]. *)
Definition try_catch {A} (body : M A) (handler : Error -> M A) : M A :=
  fun st =>
    match body st with
    | (Thrown e, st') => handler e st'
    | r => r
    end.

Definition emit (ev : event) : M unit :=
  fun st => (Returned tt, mkState (world st) (trace st ++ [ev]) (pending st)).

Definition console_log (args : list string) : M unit := emit (ConsoleLog args).
Definition console_error (args : list string) : M unit := emit (ConsoleError args).

(** [for (const x of items) { acc = body(x, acc) }]: the loop of
    [getDependencies], whose body pushes onto [result]. *)
Fixpoint for_of {A B} (items : list A) (body : A -> B -> M B) (acc : B) : M B :=
  match items with
  | [] => ret acc
  | x :: rest => bind (body x acc) (fun acc' => for_of rest body acc')
  end.

End Effects.

Arguments mkState {W} world trace pending.
Arguments world {W} s.
Arguments trace {W} s.
Arguments pending {W} s.
Arguments ret {W A} a.
Arguments bind {W A B} m k.
Arguments throw {W A} e.
Arguments out_of_fuel {W A}.
Arguments try_catch {W A} body handler.
Arguments emit {W} ev.
Arguments console_log {W} args.
Arguments console_error {W} args.
Arguments for_of {W A B} items body acc.

Notation "x <- m ;; k" := (bind m (fun x => k))
  (at level 61, m at next level, right associativity).
Notation "m ;;; k" := (bind m (fun _ => k))
  (at level 61, right associativity).

(** ** The serializer on the heap

    [generateDotGraph] is handed references: the forest is an array of
    objects that its caller still holds. Here the environment of a
    computation is the heap of those objects, so that what the function does
    to them can be told. *)

Definition ref : Type := nat.

Inductive object : Type :=
| NodeObject (name : string) (dependencies : ref)
| ArrayObject (elements : list ref).

Definition heap : Type := list object.

Module Store.

(** [dep.name] and [dep.dependencies]; on anything but a node object the
    function ends in a TypeError, at [dep.dependencies.forEach]. *)
Definition read_node (dep : ref) : M heap (string * ref) :=
  fun st =>
    match nth_error (world st) dep with
    | Some (NodeObject name dependencies) => (Returned (name, dependencies), st)
    | _ => (Thrown (TypeError "Cannot read properties of undefined (reading 'forEach')"), st)
    end.

(** The elements that [array.forEach] visits; [forEach] of anything but an
    array is not a function. *)
Definition read_array (array : ref) : M heap (list ref) :=
  fun st =>
    match nth_error (world st) array with
    | Some (ArrayObject elements) => (Returned elements, st)
    | _ => (Thrown (TypeError "forEach is not a function"), st)
    end.

Fixpoint addDependencies (fuel : nat) (dep : ref) (parent : string) (graph : string)
  : M heap string :=
  match fuel with
  | O => out_of_fuel
  | S fuel' =>
      node <- read_node dep ;;
      let graph :=
        graph +:+ "  " +:+ dquote +:+ parent +:+ dquote +:+ " -> "
              +:+ dquote +:+ fst node +:+ dquote +:+ ";" +:+ newline in
      elements <- read_array (snd node) ;;
      for_of elements (fun subDep graph => addDependencies fuel' subDep (fst node) graph) graph
  end.

Definition generateDotGraph (fuel : nat) (dependencies : ref) (packageName : string)
  : M heap string :=
  let graph := "digraph " +:+ packageName +:+ " {" +:+ newline in
  elements <- read_array dependencies ;;
  graph <- for_of elements (fun dep graph => addDependencies fuel dep packageName graph) graph ;;
  ret (graph +:+ "}" +:+ newline).

End Store.

(** The node [dep] stands at [r] in the heap [h]. *)
Fixpoint node_in (h : heap) (dep : DependencyNode) (r : ref) : Prop :=
  match dep with
  | mkNode n below =>
      exists d refs,
        nth_error h r = Some (NodeObject n d)
        /\ nth_error h d = Some (ArrayObject refs)
        /\ (fix all (below : list DependencyNode) (refs : list ref) : Prop :=
              match below, refs with
              | [], [] => True
              | b :: below', r' :: refs' => node_in h b r' /\ all below' refs'
              | _, _ => False
              end) below refs
  end.

Fixpoint nodes_in (h : heap) (forest : list DependencyNode) (refs : list ref) : Prop :=
  match forest, refs with
  | [], [] => True
  | dep :: forest', r :: refs' => node_in h dep r /\ nodes_in h forest' refs'
  | _, _ => False
  end.

(** The forest stands at [r] in the heap [h], as an array of its nodes. *)
Definition forest_in (h : heap) (forest : list DependencyNode) (r : ref) : Prop :=
  exists refs, nth_error h r = Some (ArrayObject refs) /\ nodes_in h forest refs.

(** The levels of a node and of a forest. *)
Fixpoint height (dep : DependencyNode) : nat :=
  match dep with
  | mkNode _ below => S (fold_right (fun b m => Nat.max (height b) m) O below)
  end.

Definition forest_height (forest : list DependencyNode) : nat :=
  fold_right (fun b m => Nat.max (height b) m) O forest.

(** ** The configuration

    What [readConfig] reads, and the built-in functions that the entry point
    applies to it. A field that is absent reads [undefined], here [None]. *)

(** [`${x}`] for a string or [undefined]. *)
Definition js_string (x : option string) : string :=
  match x with Some s => s | None => "undefined" end.

(** ToNumber of a number or [undefined]. *)
Definition js_number (x : option number) : number :=
  match x with Some n => n | None => NaN end.

(** The white space that [parseInt] skips, among the ASCII characters: TAB,
    LF, VT, FF, CR and the space. *)
Definition is_white_space (c : ascii) : bool :=
  let n := N_of_ascii c in (((9 <=? n) && (n <=? 13)) || (n =? 32))%N.

Fixpoint trim_start (s : string) : string :=
  match s with
  | EmptyString => EmptyString
  | String c rest => if is_white_space c then trim_start rest else s
  end.

(** The value of the decimal digits a text begins with, after [acc]. *)
Fixpoint leading_digits (s : string) (acc : N) : N :=
  match s with
  | EmptyString => acc
  | String c rest =>
      match digit_of c with
      | Some d => leading_digits rest (acc * 10 + d)%N
      | None => acc
      end
  end.

(** The digits of an unsigned numeral: [NaN] when the text begins with none. *)
Definition parse_unsigned (negative : bool) (s : string) : number :=
  match s with
  | EmptyString => NaN
  | String c _ =>
      match digit_of c with
      | Some _ =>
          let magnitude := Z.of_N (leading_digits s 0) in
          Num (if negative then - magnitude else magnitude)%Z
      | None => NaN
      end
  end.

(** [parseInt(x, 10)]: leading white space is skipped, a sign is read, then
    the longest run of decimal digits; what follows is ignored. The result is
    exact for magnitudes below [2^53]; above, the program's number is the
    nearest double. *)
Definition parseInt10 (x : option string) : number :=
  match trim_start (js_string x) with
  | String "-"%char rest => parse_unsigned true rest
  | String "+"%char rest => parse_unsigned false rest
  | s => parse_unsigned false s
  end.

(** The text after the first [n] characters. *)
Fixpoint skip (n : nat) (s : string) : string :=
  match n, s with
  | O, _ => s
  | S n', String _ rest => skip n' rest
  | S _, EmptyString => EmptyString
  end.

(** [s.replace(pattern, replacement)] for a string pattern and a replacement
    without [$]: the first occurrence is replaced, the rest is kept. *)
Fixpoint replace_first (pattern replacement s : string) : string :=
  if String.prefix pattern s then replacement +:+ skip (String.length pattern) s
  else
    match s with
    | EmptyString => EmptyString
    | String c rest => String c (replace_first pattern replacement rest)
    end.

(** A row, as the CSV parser hands it to the ['data'] listener. *)
Module CsvRow.
Record t : Type := make {
  visualizerPath : option string;
  packageName : option string;
  outputFilePath : option string;
  maxDepth : option string;
  repositoryUrl : option string
}.
End CsvRow.

(** The object [config]. *)
Module Config.
Record t : Type := make {
  visualizerPath : option string;
  packageName : option string;
  outputFilePath : option string;
  maxDepth : option number;
  repositoryUrl : option string
}.

(** [const config = {}]. *)
Definition empty : t := make None None None None None.
End Config.

(** What the stream on which [readConfig] listens emits. An error of the file
    stream itself is not among these: no listener is attached to it. *)
Inductive stream_event : Type :=
| OnData (row : CsvRow.t)
| OnEnd
| OnError (error : Error).

(** The state of a promise. *)
Inductive promise (A : Type) : Type :=
| Pending
| FulfilledWith (a : A)
| RejectedWith (reason : Error).

Arguments Pending {A}.
Arguments FulfilledWith {A} a.
Arguments RejectedWith {A} reason.

(** The ['data'] listener of [readConfig]: it assigns all five fields. *)
Definition on_data (row : CsvRow.t) (config : Config.t) : Config.t :=
  Config.make
    (CsvRow.visualizerPath row)
    (CsvRow.packageName row)
    (CsvRow.outputFilePath row)
    (Some (parseInt10 (CsvRow.maxDepth row)))
    (CsvRow.repositoryUrl row).

(** The listeners of [readConfig] at work: rows fill [config] until ['end']
    resolves the promise with it or ['error'] rejects it. A promise settles
    once, so that nothing counts after that. *)
Fixpoint listen (events : list stream_event) (config : Config.t) : promise Config.t :=
  match events with
  | [] => Pending
  | OnData row :: rest => listen rest (on_data row config)
  | OnEnd :: _ => FulfilledWith config
  | OnError error :: _ => RejectedWith error
  end.

(** How the entry point ends: it ran to its end, or it still waits for a
    promise that does not settle. *)
Inductive completion : Type :=
| Completed
| Suspended.

(** ** Environments of the tests *)

(** A response whose body declares [declared]. *)
Definition response_with (declared : value) : value :=
  VObj [("status", VNum (Num 200)); ("data", VObj [("name", VStr "pkg"); ("dependencies", declared)])].

(** The registry of the scenario, by URL; its state counts the requests. *)
Definition example_registry (url : string) (served : nat) : settled * nat :=
  (if (url =? "https://api.example.com/example-package/latest")%string then
     Fulfilled (response_with (VObj [("dep1", VObj []); ("dep2", VObj [])]))
   else if (url =? "https://api.example.com/dep1/latest")%string then
     Fulfilled (response_with (VObj []))
   else if (url =? "https://api.example.com/dep2/latest")%string then
     Fulfilled (VObj [("status", VNum (Num 200)); ("data", VObj [("name", VStr "dep2")])])
   else Rejected (mkError "AxiosError" "Request failed with status code 404"),
   S served).

(** The double of the unit test: [mockResolvedValueOnce] twice, after which
    the mock resolves to [undefined]. *)
Definition jest_axios_get (url : string) (calls : nat) : settled * nat :=
  (match calls with
   | 0 => Fulfilled (VObj [("data", VObj [("dependencies", VObj [("dep1", VObj []); ("dep2", VObj [])])])])
   | 1 => Fulfilled (VObj [("data", VObj [("dependencies", VObj [])])])
   | _ => Fulfilled VUndefined
   end, S calls).

(** A registry one of whose packages cannot be fetched. *)
Definition flaky_registry (url : string) (served : nat) : settled * nat :=
  (if (url =? "https://registry.test/app/latest")%string then
     Fulfilled (response_with (VObj [("left", VStr "^1.0.0"); ("right", VStr "^2.0.0")]))
   else if (url =? "https://registry.test/right/latest")%string then
     Fulfilled (response_with (VObj [("leaf", VStr "*")]))
   else if (url =? "https://registry.test/leaf/latest")%string then
     Fulfilled (response_with VNull)
   else Rejected (mkError "AxiosError" "Request failed with status code 503"),
   S served).

(** The wording of V8. *)
Definition v8_cannot_read (v : value) (key : string) : string :=
  "Cannot read properties of "
    +:+ match v with VNull => "null" | _ => "undefined" end
    +:+ " (reading '" +:+ key +:+ "')".

(** A disk that takes every write, and one that takes none. *)
Definition disk_writable (path data : string) (w : unit) : option Error * unit := (None, w).

(** Tools that succeed silently, and a shell that does not find them. *)
Definition tools_succeed (command : string) (w : unit) : exec_result * unit :=
  (mkExecResult None EmptyString EmptyString, w).
Definition tools_missing (command : string) (w : unit) : exec_result * unit :=
  (mkExecResult (Some (mkError "Error" ("Command failed: " +:+ command)))
     EmptyString "/bin/sh: 1: customPathToDot: not found", w).

(** A heap holding the forest of two leaves; both leaves share one empty array. *)
Definition two_leaves_heap : heap :=
  [ArrayObject [1; 3]; NodeObject "dep1" 2; ArrayObject []; NodeObject "dep2" 2].

(** The row of the unit test of [readConfig], and the stream that emits it. *)
Definition jest_row : CsvRow.t :=
  CsvRow.make (Some "dot") (Some "example-package") (Some "output.dot") (Some "2")
              (Some "https://api.example.com").

Definition jest_csv (filePath : string) (w : nat) : list stream_event * nat :=
  ([OnData jest_row; OnEnd], w).

(** A file of two rows, the second without the [maxDepth] column and with an
    output path that is no [.dot] file. *)
Definition second_row : CsvRow.t :=
  CsvRow.make None (Some "app") (Some "graphs/app.gv") None (Some "https://registry.test").

Definition two_rows_csv (filePath : string) (w : nat) : list stream_event * nat :=
  ([OnData jest_row; OnData second_row; OnEnd], w).

(** A stream that fails after its first row. *)
Definition broken_csv (filePath : string) (w : nat) : list stream_event * nat :=
  ([OnData jest_row; OnError (mkError "Error" "Invalid Record Length"); OnEnd], w).

(** A registry in which every package depends on [loop], [loop] included. *)
Definition loop_registry (url : string) (served : nat) : settled * nat :=
  (Fulfilled (response_with (VObj [("loop", VStr "^1.0.0")])), S served).

(** A registry that is down. *)
Definition down_registry (url : string) (served : nat) : settled * nat :=
  (Rejected (mkError "AxiosError" "connect ECONNREFUSED 127.0.0.1:443"), S served).

(** A package whose dependencies mix names and array indices, one that lists
    its dependencies in an array, and a registry that answers with a page. *)
Definition mixed_registry (url : string) (served : nat) : settled * nat :=
  (Fulfilled (response_with (VObj [("b", VStr "1"); ("10", VStr "1"); ("a", VStr "1");
                                   ("2", VStr "1")])), S served).

Definition array_registry (url : string) (served : nat) : settled * nat :=
  (Fulfilled (response_with (VArr [VStr "left-pad"; VStr "chalk"])), S served).

Definition page_registry (url : string) (served : nat) : settled * nat :=
  (Fulfilled (VObj [("status", VNum (Num 200)); ("data", VStr "<!DOCTYPE html>")]), S served).

(** A registry whose answer was cut short: the body is no JSON, and axios
    hands it on as the text it received. *)
Definition truncated_registry (url : string) (served : nat) : settled * nat :=
  (Fulfilled
     (VObj [("status", VNum (Num 200));
            ("data", VStr ("{" +:+ dquote +:+ "dependencies" +:+ dquote +:+ ": {"
                               +:+ dquote +:+ "dep1" +:+ dquote +:+ ": "))]),
   S served).




(** A disk and tools for an environment that counts requests. *)
Definition disk_accepts (path data : string) (w : nat) : option Error * nat := (None, w).
Definition disk_refuses (path data : string) (w : nat) : option Error * nat :=
  (Some (mkError "Error" "EACCES: permission denied"), w).
Definition tools_run (command : string) (w : nat) : exec_result * nat :=
  (mkExecResult None EmptyString EmptyString, w).

(** The wording of Node for a path that is [undefined]. *)
Definition node_invalid_path : string :=
  "The " +:+ dquote +:+ "path" +:+ dquote
    +:+ " argument must be of type string or an instance of Buffer or URL. Received undefined".

(** ** The resolver and the render pipeline *)

Section Program.

(** The environment: its state, and what it answers to each request. *)
Variable W : Type.

(** [axios.get(url)]: the promise fulfils with a response or rejects with an
    [Error] (axios rejects on network failures and on HTTP statuses outside 2xx). *)
Variable axios_get : string -> W -> settled * W.

(** [fs.writeFileSync(path, data, 'utf8')]: [Some e] when it throws [e]. *)
Variable fs_writeFileSync : string -> string -> W -> option Error * W.

(** What the process started for a command reports when it ends. *)
Variable child_process : string -> W -> exec_result * W.

(** The text of the engine's TypeError for reading property [key] of [v]. *)
Variable cannot_read : value -> string -> string.

(** What the stream [fs.createReadStream(filePath).pipe(csv())] emits. *)
Variable csv_stream : string -> W -> list stream_event * W.

(** The text of Node's TypeError for a path that is [undefined]. *)
Variable invalid_path : string.

Local Abbreviation state := (state W).
Local Abbreviation M := (M W).

(** [await axios.get(url)]: the request goes out, and a rejection is thrown
    at the [await]. *)
Definition await_axios_get (url : string) : M value :=
  fun st =>
    let (answer, w) := axios_get url (world st) in
    let st' := mkState w (trace st ++ [HttpGet url]) (pending st) in
    match answer with
    | Fulfilled response => (Returned response, st')
    | Rejected reason => (Thrown reason, st')
    end.

(** [v.key] for the keys this program reads, [data] and [dependencies]:
    neither is an index or a built-in property of a string, an array, a number
    or a boolean, which therefore answer [undefined]. *)
Definition get (v : value) (key : string) : M value :=
  match v with
  | VUndefined | VNull => throw (TypeError (cannot_read v key))
  | VObj props =>
      ret match find (fun kv => (fst kv =? key)%string) props with
          | Some kv => snd kv
          | None => VUndefined
          end
  | VBool _ | VNum _ | VStr _ | VArr _ => ret VUndefined
  end.

(** [Object.entries(v)]. *)
Definition Object_entries (v : value) : M (list (string * value)) :=
  match v with
  | VUndefined | VNull => throw (TypeError "Cannot convert undefined or null to object")
  | VBool _ | VNum _ => ret []
  | VStr s => ret (indexed 0 (chars s))
  | VArr items => ret (indexed 0 items)
  | VObj props => ret (own_props props)
  end.

(** [getDependencies(packageName, depth, maxDepth, repositoryUrl)].
    [fuel] bounds the nesting of recursive calls; the depth test comes before
    it, as in the source it comes before everything else. *)
Fixpoint getDependencies (fuel : nat) (packageName : string) (depth : Z)
  (maxDepth : number) (repositoryUrl : string) : M (list DependencyNode) :=
  if gt depth maxDepth then ret []
  else
    match fuel with
    | O => out_of_fuel
    | S fuel' =>
        try_catch
          (response <- await_axios_get (repositoryUrl +:+ "/" +:+ packageName +:+ "/latest") ;;
           data <- get response "data" ;;
           declared <- get data "dependencies" ;;
           let dependencies := js_or declared empty_object in
           entries <- Object_entries dependencies ;;
           for_of entries
             (fun entry result =>
                let name := fst entry in
                subDeps <- getDependencies fuel' name (depth + 1) maxDepth repositoryUrl ;;
                ret (result ++ [mkNode name subDeps]))
             [])
          (fun error =>
             console_error
               ["Ошибка при загрузке зависимостей пакета " +:+ packageName +:+ ":";
                message error] ;;;
             ret [])
    end.

(** [fs.writeFileSync(path, data, encoding)]. *)
Definition writeFileSync (path data encoding : string) : M unit :=
  fun st =>
    let (failure, w) := fs_writeFileSync path data (world st) in
    let st' := mkState w (trace st ++ [WriteFile path data encoding]) (pending st) in
    match failure with
    | None => (Returned tt, st')
    | Some e => (Thrown e, st')
    end.

(** [exec(command, callback)] starts the process and returns at once; the
    callback runs from the event loop when the process has ended. *)
Definition exec (command : string) (cb : callback) : M unit :=
  fun st =>
    (Returned tt,
     mkState (world st) (trace st ++ [Exec command]) (pending st ++ [(command, cb)])).

(** The bodies of the two callbacks [(error, stdout, stderr) => { ... }]. *)
Definition run_callback (cb : callback) (r : exec_result) : M unit :=
  match cb with
  | SvgDone outputFilePath svgFilePath =>
      match exec_error r with
      | Some error =>
          console_error ["Ошибка при выполнении команды для SVG: " +:+ message error]
      | None =>
          if truthy (VStr (exec_stderr r)) then
            console_error ["Ошибка: " +:+ exec_stderr r]
          else
            console_log ["SVG-изображение графа сохранено в: " +:+ svgFilePath] ;;;
            let pngFilePath := outputFilePath +:+ ".png" in
            let pngCommand := "magick " +:+ svgFilePath +:+ " " +:+ pngFilePath in
            exec pngCommand (PngDone pngFilePath)
      end
  | PngDone pngFilePath =>
      match exec_error r with
      | Some error =>
          console_error ["Ошибка при выполнении команды для PNG: " +:+ message error]
      | None =>
          if truthy (VStr (exec_stderr r)) then
            console_error ["Ошибка: " +:+ exec_stderr r]
          else
            console_log ["PNG-изображение графа сохранено в: " +:+ pngFilePath]
      end
  end.

(** [generateImageFromDot(dotString, outputFilePath, visualizerPath = 'dot')]:
    the synchronous body of the async function. Its outcome settles the
    returned promise: [Returned] fulfils it, [Thrown] rejects it. *)
Definition generateImageFromDot (dotString outputFilePath : string)
  (visualizerPath : option string) : M unit :=
  let visualizerPath := match visualizerPath with Some p => p | None => "dot" end in
  try_catch
    (let dotFilePath := outputFilePath +:+ ".dot" in
     writeFileSync dotFilePath dotString "utf8" ;;;
     console_log ["DOT-граф сохранен в: " +:+ dotFilePath] ;;;
     let svgFilePath := outputFilePath +:+ ".svg" in
     let svgCommand :=
       visualizerPath +:+ " -Tsvg " +:+ dotFilePath +:+ " -o " +:+ svgFilePath in
     exec svgCommand (SvgDone outputFilePath svgFilePath))
    (fun error => console_error ["Ошибка при генерации изображения:"; message error]).

(** The event loop: while a process is pending, it ends with what the
    environment reports and its callback runs. The program never has two
    processes pending at once. *)
Fixpoint event_loop (fuel : nat) : M unit :=
  fun st =>
    match pending st with
    | [] => (Returned tt, st)
    | (command, cb) :: rest =>
        match fuel with
        | O => (OutOfFuel, st)
        | S fuel' =>
            let (r, w) := child_process command (world st) in
            (run_callback cb r ;;; event_loop fuel') (mkState w (trace st) rest)
        end
    end.

(** A call of [generateImageFromDot] followed by the callbacks it leaves. *)
Definition render (fuel : nat) (dotString outputFilePath : string)
  (visualizerPath : option string) : M unit :=
  generateImageFromDot dotString outputFilePath visualizerPath ;;; event_loop fuel.


(** [readConfig(filePath)]: the promise it returns, as the stream leaves it. *)
Definition readConfig (filePath : string) : M (promise Config.t) :=
  fun st =>
    let (events, w) := csv_stream filePath (world st) in
    (Returned (listen events Config.empty), mkState w (trace st) (pending st)).

(** [await p] in the entry point: a rejection is thrown, and the function
    goes no further while the promise is pending. *)
Definition await {A} (p : promise A) (rest : A -> M completion) : M completion :=
  match p with
  | FulfilledWith a => rest a
  | RejectedWith reason => throw reason
  | Pending => ret Suspended
  end.

(** [fs.writeFileSync(path, data)] with the path read from [config]; no
    encoding is passed, and a string is then written as utf8. *)
Definition write_file (path : option string) (data : string) : M unit :=
  match path with
  | Some p => writeFileSync p data "utf8"
  | None => throw (TypeError invalid_path)
  end.

(** [config.outputFilePath.replace('.dot', '')]. *)
Definition without_dot (path : option string) : M string :=
  match path with
  | Some p => ret (replace_first ".dot" EmptyString p)
  | None => throw (TypeError (cannot_read VUndefined "replace"))
  end.

(** The entry point, the async function that the module calls when loaded. *)
Definition main (fuel : nat) : M completion :=
  try_catch
    (reading <- readConfig "./config.csv" ;;
     await reading (fun config =>
       dependencies <- getDependencies fuel (js_string (Config.packageName config)) 1
                         (js_number (Config.maxDepth config))
                         (js_string (Config.repositoryUrl config)) ;;
       if (List.length dependencies =? 0)%nat then
         console_log ["Не удалось получить зависимости или пакет не имеет зависимостей."] ;;;
         ret Completed
       else
         let dotGraph := generateDotGraph dependencies (js_string (Config.packageName config)) in
         write_file (Config.outputFilePath config) dotGraph ;;;
         console_log ["Граф зависимостей:" +:+ newline; dotGraph] ;;;
         base <- without_dot (Config.outputFilePath config) ;;
         generateImageFromDot dotGraph base (Config.visualizerPath config) ;;;
         ret Completed))
    (fun error =>
       console_error ["Произошла ошибка:"; message error] ;;;
       ret Completed).

(** The entry point followed by the callbacks it leaves. *)
Definition run (fuel : nat) : M completion :=
  ended <- main fuel ;;
  event_loop fuel ;;;
  ret ended.

(** ** What the specification speaks of *)

(** *** The graph text *)

(** One edge line: [  "<parent>" -> "<child>";] and a line feed, the names as
    they are. *)
Definition edge_line (parent child : string) : string :=
  "  " +:+ dquote +:+ parent +:+ dquote +:+ " -> " +:+ dquote +:+ child +:+ dquote
       +:+ ";" +:+ newline.

(** The (parent, child) pairs of a pre-order depth-first walk: the edge into a
    node, then the edges below it, child by child in stored order. *)
Fixpoint edges_from (parent : string) (dep : DependencyNode) : list (string * string) :=
  match dep with
  | mkNode child below => (parent, child) :: flat_map (edges_from child) below
  end.

Definition edges (rootName : string) (forest : list DependencyNode) : list (string * string) :=
  flat_map (edges_from rootName) forest.

(** Texts one after the other. *)
Definition join (texts : list string) : string := fold_right String.append EmptyString texts.

(** The graph text as the specification words it: header, edge lines, closing line. *)
Definition serialize (forest : list DependencyNode) (rootName : string) : string :=
  ("digraph " +:+ rootName +:+ " {" +:+ newline)
    +:+ join (map (fun e => edge_line (fst e) (snd e)) (edges rootName forest))
    +:+ ("}" +:+ newline).

(** The number of nodes of a forest. *)
Fixpoint node_count (dep : DependencyNode) : nat :=
  match dep with
  | mkNode _ below => S (list_sum (map node_count below))
  end.

(** Induction over a node with the hypothesis for every child. *)
Fixpoint DependencyNode_forall_ind (P : DependencyNode -> Prop)
  (step : forall n below, Forall P below -> P (mkNode n below))
  (dep : DependencyNode) : P dep :=
  match dep with
  | mkNode n below =>
      step n below
        ((fix all (ds : list DependencyNode) : Forall P ds :=
            match ds with
            | [] => Forall_nil P
            | d :: ds' => Forall_cons d (DependencyNode_forall_ind P step d) (all ds')
            end) below)
  end.

Definition edge_lines (es : list (string * string)) : string :=
  join (map (fun e => edge_line (fst e) (snd e)) es).

(** *** The resolver *)

(** The URL a call requests. *)
Definition request_url (repositoryUrl packageName : string) : string :=
  repositoryUrl +:+ "/" +:+ packageName +:+ "/latest".

(** A property as a plain function: [None] where reading it throws. *)
Definition property (v : value) (key : string) : option value :=
  match v with
  | VUndefined | VNull => None
  | VObj props =>
      Some match find (fun kv => (fst kv =? key)%string) props with
           | Some kv => snd kv
           | None => VUndefined
           end
  | VBool _ | VNum _ | VStr _ | VArr _ => Some VUndefined
  end.

(** The entries of a value that is neither [undefined] nor [null]. *)
Definition entries_of (v : value) : list (string * value) :=
  match v with
  | VStr s => indexed 0 (chars s)
  | VArr items => indexed 0 items
  | VObj props => own_props props
  | VUndefined | VNull | VBool _ | VNum _ => []
  end.

(** What a settled request declares: the entries to resolve, or the error
    that the [catch] receives (a rejection, or the TypeError of reading a
    property of [undefined] or [null]). *)
Definition declared_entries (answer : settled) : Error + list (string * value) :=
  match answer with
  | Rejected e => inl e
  | Fulfilled response =>
      match property response "data" with
      | None => inl (TypeError (cannot_read response "data"))
      | Some data =>
          match property data "dependencies" with
          | None => inl (TypeError (cannot_read data "dependencies"))
          | Some declared => inr (entries_of (js_or declared empty_object))
          end
      end
  end.

(** What the [catch] of [getDependencies] prints. *)
Definition fetch_failure_report (packageName : string) (error : Error) : event :=
  ConsoleError ["Ошибка при загрузке зависимостей пакета " +:+ packageName +:+ ":";
                message error].

(** One turn of the loop of [getDependencies]. *)
Definition push_child (fuel : nat) (depth : Z) (maxDepth : number) (repositoryUrl : string)
  (entry : string * value) (result : list DependencyNode) : M (list DependencyNode) :=
  subDeps <- getDependencies fuel (fst entry) (depth + 1) maxDepth repositoryUrl ;;
  ret (result ++ [mkNode (fst entry) subDeps]).

(** Children resolved one after the other by [call]: each name yields one
    node, whose dependencies are what its own call returned, and the next
    call starts in the state the previous one left. *)
Inductive children_resolved (call : string -> M (list DependencyNode))
  : list string -> state -> list DependencyNode -> state -> Prop :=
| resolved_none st : children_resolved call [] st [] st
| resolved_next child names st subDeps st1 nodes st2 :
    call child st = (Returned subDeps, st1) ->
    children_resolved call names st1 nodes st2 ->
    children_resolved call (child :: names) st (mkNode child subDeps :: nodes) st2.

(** The calls that a call at [depth] nests, itself included, when the bound
    is [maxDepth]: the fuel that suffices. *)
Definition levels (depth maxDepth : Z) : nat := Z.to_nat (maxDepth + 1 - depth).

(** *** The depth of a result *)

(** The nodes of a forest at depth [k], its root-level nodes being at depth 1. *)
Fixpoint nodes_at_depth (k : nat) (forest : list DependencyNode) : list DependencyNode :=
  match k with
  | O => []
  | S k' =>
      match k' with
      | O => forest
      | S _ => flat_map (fun n => nodes_at_depth k' (dependencies n)) forest
      end
  end.

(** A forest of at most [n] levels. *)
Fixpoint bounded (n : nat) (forest : list DependencyNode) : Prop :=
  match n with
  | O => forest = []
  | S n' => Forall (fun node => bounded n' (dependencies node)) forest
  end.

(** *** Requests *)

(** The URLs requested along a trace, in order. *)
Definition requests (tr : list event) : list string :=
  flat_map (fun ev => match ev with HttpGet url => [url] | _ => [] end) tr.

(** The requests that resolving a forest takes when [n] levels remain under
    the bound: for each node in order its own request, then those of its
    dependencies with one level less. *)
Fixpoint expected_requests (repositoryUrl : string) (n : nat) (forest : list DependencyNode)
  : list string :=
  match n with
  | O => []
  | S n' =>
      flat_map (fun node => request_url repositoryUrl (name node)
                              :: expected_requests repositoryUrl n' (dependencies node))
               forest
  end.

(** The request is fulfilled by a response whose body has [declared] in its
    [dependencies] field ([undefined] when the field is absent). *)
Definition declares (answer : settled) (declared : value) : Prop :=
  exists response data,
    answer = Fulfilled response
    /\ property response "data" = Some data
    /\ property data "dependencies" = Some declared.

(** *** The render pipeline *)

(** The commands handed to [exec] along a trace, in order. *)
Definition commands (tr : list event) : list string :=
  flat_map (fun ev => match ev with Exec command => [command] | _ => [] end) tr.

Definition visualizer (visualizerPath : option string) : string :=
  match visualizerPath with Some p => p | None => "dot" end.

(** [{visualizer} -Tsvg {base}.dot -o {base}.svg]. *)
Definition svg_command (visualizerPath : option string) (base : string) : string :=
  visualizer visualizerPath +:+ " -Tsvg " +:+ (base +:+ ".dot") +:+ " -o " +:+ (base +:+ ".svg").

(** The raster conversion, from [{base}.svg] to [{base}.png]. *)
Definition png_command (base : string) : string :=
  "magick " +:+ (base +:+ ".svg") +:+ " " +:+ (base +:+ ".png").

(** A conversion step succeeded: no error and nothing on stderr. *)
Definition succeeded (r : exec_result) : bool :=
  match exec_error r with
  | Some _ => false
  | None => (exec_stderr r =? EmptyString)%string
  end.


(** What the callback of a conversion step prints, and the command it
    starts, for the result [r] of the step. *)
Definition svg_done_events (base : string) (r : exec_result) : list event :=
  match exec_error r with
  | Some error => [ConsoleError ["Ошибка при выполнении команды для SVG: " +:+ message error]]
  | None =>
      if (exec_stderr r =? EmptyString)%string
      then [ConsoleLog ["SVG-изображение графа сохранено в: " +:+ (base +:+ ".svg")];
            Exec (png_command base)]
      else [ConsoleError ["Ошибка: " +:+ exec_stderr r]]
  end.

Definition png_done_events (base : string) (r : exec_result) : list event :=
  match exec_error r with
  | Some error => [ConsoleError ["Ошибка при выполнении команды для PNG: " +:+ message error]]
  | None =>
      if (exec_stderr r =? EmptyString)%string
      then [ConsoleLog ["PNG-изображение графа сохранено в: " +:+ (base +:+ ".png")]]
      else [ConsoleError ["Ошибка: " +:+ exec_stderr r]]
  end.

(** The whole run, from a state with nothing pending: the trace it adds. *)
Definition render_events (dotString base : string) (visualizerPath : option string) (w : W)
  : list event * W :=
  let (failure, w1) := fs_writeFileSync (base +:+ ".dot") dotString w in
  match failure with
  | Some e =>
      ([WriteFile (base +:+ ".dot") dotString "utf8";
        ConsoleError ["Ошибка при генерации изображения:"; message e]], w1)
  | None =>
      let (svg, w2) := child_process (svg_command visualizerPath base) w1 in
      let started :=
        [WriteFile (base +:+ ".dot") dotString "utf8";
         ConsoleLog ["DOT-граф сохранен в: " +:+ (base +:+ ".dot")];
         Exec (svg_command visualizerPath base)] ++ svg_done_events base svg in
      if succeeded svg then
        let (png, w3) := child_process (png_command base) w2 in
        (started ++ png_done_events base png, w3)
      else (started, w2)
  end.

(** *** Beyond the specification *)

(** The events of the resolver: requests and reports of failed fetches. *)
Definition resolver_event (ev : event) : Prop :=
  match ev with
  | HttpGet _ | ConsoleError _ => True
  | WriteFile _ _ _ | Exec _ | ConsoleLog _ => False
  end.

(** From [st] to [st'] only requests and failure reports were added, and the
    pending callbacks are the same. *)
Definition resolver_step (st st' : state) : Prop :=
  (exists ext, trace st' = trace st ++ ext /\ Forall resolver_event ext)
  /\ pending st' = pending st.

(** The files written along a trace, each with the text written. *)
Definition writes (tr : list event) : list (string * string) :=
  flat_map (fun ev => match ev with WriteFile path data _ => [(path, data)] | _ => [] end) tr.

(** The error reports and the notices along a trace. *)
Definition reports (tr : list event) : nat :=
  List.length (filter (fun ev => match ev with ConsoleError _ => true | _ => false end) tr).

Definition notices (tr : list event) : nat :=
  List.length (filter (fun ev => match ev with ConsoleLog _ => true | _ => false end) tr).

(** The configuration after the rows: that of the last row, as every row
    assigns all the fields. *)
Definition final_config (rows : list CsvRow.t) : Config.t :=
  match rev rows with
  | [] => Config.empty
  | row :: _ => on_data row Config.empty
  end.

(** The pattern occurs in the text. *)
Fixpoint occurs (pattern s : string) : bool :=
  if String.prefix pattern s then true
  else
    match s with
    | EmptyString => false
    | String _ rest => occurs pattern rest
    end.

(** What the entry point prints. *)
Definition nothing_resolved : event :=
  ConsoleLog ["Не удалось получить зависимости или пакет не имеет зависимостей."].

Definition graph_notice (dotGraph : string) : event :=
  ConsoleLog ["Граф зависимостей:" +:+ newline; dotGraph].

Definition main_failure_report (text : string) : event :=
  ConsoleError ["Произошла ошибка:"; text].

(** A text that does not begin with a decimal digit. *)
Definition no_leading_digit (s : string) : Prop :=
  match s with
  | EmptyString => True
  | String c _ => digit_of c = None
  end.

(** Properties with their array index, in ascending order of the index. *)
Definition by_index (a b : N * (string * value)) : Prop := (fst a <= fst b)%N.

(** A chain of [n] nodes of one name, each the only dependency of the one above. *)
Fixpoint chain (n : nat) (child : string) : list DependencyNode :=
  match n with
  | O => []
  | S n' => [mkNode child (chain n' child)]
  end.

(** ** Proofs *)

(** *** Strings and trees *)

Lemma append_assoc (a b c : string) : (a +:+ b) +:+ c = a +:+ (b +:+ c).
Proof. induction a as [|ch a IH]; simpl; [reflexivity | now rewrite IH]. Qed.

Lemma append_empty_r (a : string) : a +:+ EmptyString = a.
Proof. induction a as [|ch a IH]; simpl; [reflexivity | now rewrite IH]. Qed.

Lemma join_app (xs ys : list string) : join (xs ++ ys) = join xs +:+ join ys.
Proof.
  induction xs as [|x xs IH]; simpl; [reflexivity|].
  now rewrite IH, append_assoc.
Qed.

(** *** The serializer *)

Lemma edge_lines_app (xs ys : list (string * string)) :
  edge_lines (xs ++ ys) = edge_lines xs +:+ edge_lines ys.
Proof. unfold edge_lines. now rewrite map_app, join_app. Qed.

(** A loop over nodes, each of which appends its own edge lines, appends the
    edge lines of them all. *)
Lemma fold_addDependencies (parent : string) (deps : list DependencyNode) :
  Forall (fun d => forall p g, addDependencies d p g = g +:+ edge_lines (edges_from p d)) deps ->
  forall graph,
    fold_left (fun g d => addDependencies d parent g) deps graph
    = graph +:+ edge_lines (flat_map (edges_from parent) deps).
Proof.
  induction 1 as [|d deps Hd _ IH]; intros graph; simpl.
  - now rewrite append_empty_r.
  - rewrite Hd, IH, edge_lines_app. apply append_assoc.
Qed.

Lemma addDependencies_edge_lines (dep : DependencyNode) :
  forall parent graph,
    addDependencies dep parent graph = graph +:+ edge_lines (edges_from parent dep).
Proof.
  induction dep as [child below IH] using DependencyNode_forall_ind.
  intros parent graph. simpl addDependencies.
  rewrite (fold_addDependencies child below IH).
  rewrite append_assoc. reflexivity.
Qed.

(** C3. [generateDotGraph] returns exactly the header line [digraph <root> {],
    then one edge line [  "<parent>" -> "<child>";] for each (parent, child)
    pair of the pre-order depth-first walk of the forest (a root-level node's
    edge from the root name, then the edges of all its descendants, before the
    next sibling's edge), then the closing line; the names stand verbatim.
    There are as many edge lines as the forest has nodes. *)
Theorem generateDotGraph_serialize (forest : list DependencyNode) (rootName : string) :
  generateDotGraph forest rootName = serialize forest rootName
  /\ List.length (edges rootName forest) = list_sum (map node_count forest).
Proof.
  split.
  - unfold generateDotGraph, serialize, edges.
    rewrite fold_addDependencies.
    + fold (edge_lines (flat_map (edges_from rootName) forest)).
      now rewrite !append_assoc.
    + apply Forall_forall. intros d _ p g. apply addDependencies_edge_lines.
  - unfold edges. generalize rootName.
    induction forest as [|d forest IHf]; intros parent; simpl; [reflexivity|].
    rewrite List.length_app, IHf. f_equal.
    clear IHf forest. revert parent.
    induction d as [child below IH] using DependencyNode_forall_ind.
    intros parent. simpl. f_equal.
    induction IH as [|b below Hb _ IHb]; simpl; [reflexivity|].
    now rewrite List.length_app, Hb, IHb.
Qed.

(** The example of the specification: two leaves under [example-package]. *)
Example generateDotGraph_two_leaves :
  generateDotGraph [mkNode "dep1" []; mkNode "dep2" []] "example-package"
  = "digraph example-package {" +:+ newline
    +:+ "  " +:+ dquote +:+ "example-package" +:+ dquote +:+ " -> " +:+ dquote +:+ "dep1" +:+ dquote +:+ ";" +:+ newline
    +:+ "  " +:+ dquote +:+ "example-package" +:+ dquote +:+ " -> " +:+ dquote +:+ "dep2" +:+ dquote +:+ ";" +:+ newline
    +:+ "}" +:+ newline.
Proof. reflexivity. Qed.

(** *** The resolver: what one call does *)

Lemma get_property (v : value) (key : string) (st : state) :
  get v key st
  = (match property v key with
     | Some x => Returned x
     | None => Thrown (TypeError (cannot_read v key))
     end, st).
Proof. destruct v; reflexivity. Qed.

Lemma truthy_js_or (a : value) : truthy (js_or a empty_object) = true.
Proof. unfold js_or. destruct (truthy a) eqn:E; [exact E | reflexivity]. Qed.

Lemma Object_entries_truthy (v : value) (st : state) :
  truthy v = true -> Object_entries v st = (Returned (entries_of v), st).
Proof. destruct v; simpl; intros H; try discriminate; reflexivity. Qed.

Lemma try_catch_never_throws {A} (body : M A) (handler : Error -> M A) (st : state) :
  (forall e st1, exists a st2, handler e st1 = (Returned a, st2)) ->
  forall e, fst (try_catch body handler st) <> Thrown e.
Proof.
  intros Hh e. unfold try_catch.
  destruct (body st) as [[a|e'|] st1]; simpl; try discriminate.
  destruct (Hh e' st1) as (a & st2 & ->). discriminate.
Qed.

Lemma getDependencies_never_throws (fuel : nat) (packageName : string) (depth : Z)
  (maxDepth : number) (repositoryUrl : string) (st : state) (e : Error) :
  fst (getDependencies fuel packageName depth maxDepth repositoryUrl st) <> Thrown e.
Proof.
  destruct fuel; simpl; destruct (gt depth maxDepth); simpl; try discriminate.
  apply try_catch_never_throws. intros e' st1. eexists _, _. reflexivity.
Qed.

Lemma for_of_never_throws {A B} (items : list A) (body : A -> B -> M B) :
  (forall x acc st e, fst (body x acc st) <> Thrown e) ->
  forall acc st e, fst (for_of items body acc st) <> Thrown e.
Proof.
  intros Hb. induction items as [|x items IH]; intros acc st e; simpl.
  - discriminate.
  - unfold bind. specialize (Hb x acc st).
    destruct (body x acc st) as [[acc'|e'|] st1]; simpl in *.
    + apply IH.
    + now contradiction (Hb e').
    + discriminate.
Qed.

Lemma push_child_never_throws fuel depth maxDepth repositoryUrl entry result st e :
  fst (push_child fuel depth maxDepth repositoryUrl entry result st) <> Thrown e.
Proof.
  unfold push_child, bind.
  pose proof (getDependencies_never_throws fuel (fst entry) (depth + 1) maxDepth
                repositoryUrl st) as H.
  destruct (getDependencies _ _ _ _ _ st) as [[t|e'|] st1]; simpl in *; try discriminate.
  now contradiction (H e').
Qed.

(** One call whose depth test passes: the request, then either the report of
    the failure and the empty result, or the loop over the declared entries. *)
Lemma getDependencies_fetch (fuel : nat) (packageName : string) (depth : Z)
  (maxDepth : number) (repositoryUrl : string) (st : state) :
  gt depth maxDepth = false ->
  getDependencies (S fuel) packageName depth maxDepth repositoryUrl st
  = let url := request_url repositoryUrl packageName in
    let (answer, w) := axios_get url (world st) in
    match declared_entries answer with
    | inl e =>
        (Returned [],
         mkState w (trace st ++ [HttpGet url; fetch_failure_report packageName e]) (pending st))
    | inr entries =>
        for_of entries (push_child fuel depth maxDepth repositoryUrl) []
               (mkState w (trace st ++ [HttpGet url]) (pending st))
    end.
Proof.
  intros Hgt. cbn [getDependencies]. rewrite Hgt.
  fold (request_url repositoryUrl packageName).
  fold (push_child fuel depth maxDepth repositoryUrl).
  unfold try_catch at 1. unfold bind at 1. unfold await_axios_get. cbv zeta.
  destruct (axios_get (request_url repositoryUrl packageName) (world st)) as [answer w].
  destruct answer as [response|reason]; cbn [declared_entries].
  2:{ unfold console_error, emit, bind, ret; simpl. now rewrite <- app_assoc. }
  unfold bind at 1. rewrite get_property.
  destruct (property response "data") as [data|].
  2:{ unfold console_error, emit, bind, ret; simpl. now rewrite <- app_assoc. }
  unfold bind at 1. rewrite get_property.
  destruct (property data "dependencies") as [declared|].
  2:{ unfold console_error, emit, bind, ret; simpl. now rewrite <- app_assoc. }
  unfold bind at 1. rewrite Object_entries_truthy by apply truthy_js_or.
  match goal with |- context [for_of ?es ?b ?a ?s] =>
    pose proof (for_of_never_throws es b
                  (push_child_never_throws fuel depth maxDepth repositoryUrl) a s) as Hnt;
    destruct (for_of es b a s) as [[tree|e|] st2]
  end; simpl in *; try reflexivity.
  now contradiction (Hnt e).
Qed.

Lemma getDependencies_beyond (fuel : nat) (packageName : string) (depth : Z)
  (maxDepth : number) (repositoryUrl : string) (st : state) :
  gt depth maxDepth = true ->
  getDependencies fuel packageName depth maxDepth repositoryUrl st = (Returned [], st).
Proof. intros H. destruct fuel; simpl; rewrite H; reflexivity. Qed.

Lemma gt_false_levels (depth m : Z) :
  gt depth (Num m) = false -> levels depth m = S (levels (depth + 1) m).
Proof. unfold gt, levels. intros H. lia. Qed.

Lemma gt_true_levels (depth m : Z) :
  gt depth (Num m) = true -> levels depth m = O.
Proof. unfold gt, levels. intros H. lia. Qed.

(** The loop resolves the children one after the other, given that every
    nested call returns. *)
Lemma for_of_push_child (fuel : nat) (depth : Z) (maxDepth : number) (repositoryUrl : string) :
  (forall child st, exists subDeps st1,
      getDependencies fuel child (depth + 1) maxDepth repositoryUrl st = (Returned subDeps, st1)) ->
  forall entries acc st, exists nodes st',
    for_of entries (push_child fuel depth maxDepth repositoryUrl) acc st
    = (Returned (acc ++ nodes), st')
    /\ children_resolved (fun child => getDependencies fuel child (depth + 1) maxDepth repositoryUrl)
         (map fst entries) st nodes st'.
Proof.
  intros Hcall. induction entries as [|entry entries IH]; intros acc st; simpl.
  - exists [], st. rewrite app_nil_r. split; [reflexivity | constructor].
  - destruct (Hcall (fst entry) st) as (subDeps & st1 & Hsub).
    destruct (IH (acc ++ [mkNode (fst entry) subDeps]) st1) as (nodes & st' & Hloop & Hres).
    exists (mkNode (fst entry) subDeps :: nodes), st'. split.
    + unfold bind at 1. unfold push_child at 1. unfold bind at 1. rewrite Hsub.
      unfold ret at 1. rewrite Hloop. now rewrite <- app_assoc.
    + econstructor; eassumption.
Qed.

(** With fuel for the levels that remain, a call returns. *)
Lemma getDependencies_returns (fuel : nat) :
  forall packageName depth m repositoryUrl st,
    (levels depth m <= fuel)%nat ->
    exists tree st',
      getDependencies fuel packageName depth (Num m) repositoryUrl st = (Returned tree, st').
Proof.
  induction fuel as [|fuel IH]; intros packageName depth m repositoryUrl st Hfuel;
    destruct (gt depth (Num m)) eqn:Hgt;
    try (rewrite getDependencies_beyond by assumption; eauto; fail).
  - rewrite (gt_false_levels _ _ Hgt) in Hfuel. lia.
  - rewrite getDependencies_fetch by assumption. cbv zeta.
    destruct (axios_get _ _) as [answer w].
    destruct (declared_entries answer) as [e|entries]; [eauto|].
    rewrite (gt_false_levels _ _ Hgt) in Hfuel.
    edestruct (for_of_push_child fuel depth (Num m) repositoryUrl) as (nodes & st' & Hloop & _).
    + intros child st0. apply IH. lia.
    + rewrite Hloop. eauto.
Qed.

Lemma for_of_ext {A B} (items : list A) (body1 body2 : A -> B -> M B) :
  (forall x acc st, body1 x acc st = body2 x acc st) ->
  forall acc st, for_of items body1 acc st = for_of items body2 acc st.
Proof.
  intros Hb. induction items as [|x items IH]; intros acc st; simpl; [reflexivity|].
  unfold bind. rewrite Hb. destruct (body2 x acc st) as [[acc'|e|] st1]; auto.
Qed.

(** More fuel than the levels that remain changes nothing. *)
Lemma getDependencies_fuel (fuel1 : nat) :
  forall fuel2 packageName depth m repositoryUrl st,
    (levels depth m <= fuel1)%nat -> (levels depth m <= fuel2)%nat ->
    getDependencies fuel1 packageName depth (Num m) repositoryUrl st
    = getDependencies fuel2 packageName depth (Num m) repositoryUrl st.
Proof.
  induction fuel1 as [|fuel1 IH]; intros fuel2 packageName depth m repositoryUrl st H1 H2;
    destruct (gt depth (Num m)) eqn:Hgt;
    try (rewrite !getDependencies_beyond by assumption; reflexivity).
  - rewrite (gt_false_levels _ _ Hgt) in H1. lia.
  - rewrite (gt_false_levels _ _ Hgt) in H1, H2.
    destruct fuel2 as [|fuel2]; [lia|].
    rewrite !getDependencies_fetch by assumption. cbv zeta.
    destruct (axios_get _ _) as [answer w].
    destruct (declared_entries answer) as [e|entries]; [reflexivity|].
    apply for_of_ext. intros entry acc st0. unfold push_child, bind.
    rewrite (IH fuel2) by lia. reflexivity.
Qed.

Lemma children_resolved_ext (call1 call2 : string -> M (list DependencyNode)) :
  (forall child st, call1 child st = call2 child st) ->
  forall names st nodes st',
    children_resolved call1 names st nodes st' -> children_resolved call2 names st nodes st'.
Proof.
  intros Hext names st nodes st' H.
  induction H; econstructor; eauto. now rewrite <- Hext.
Qed.

Lemma children_resolved_names (call : string -> M (list DependencyNode)) :
  forall names st nodes st',
    children_resolved call names st nodes st' -> map name nodes = names.
Proof. intros names st nodes st' H. induction H; simpl; [reflexivity | now f_equal]. Qed.

(** A call whose depth test passes, with fuel for the levels that remain:
    either the fetch fails, and the call reports it and returns the empty
    sequence, or it returns one node per declared name, the children resolved
    one after the other by calls one level deeper. *)
Lemma getDependencies_resolves (fuel : nat) (packageName : string) (depth m : Z)
  (repositoryUrl : string) (st : state) :
  (levels depth m <= fuel)%nat -> (depth <= m)%Z ->
  let url := request_url repositoryUrl packageName in
  let (answer, w) := axios_get url (world st) in
  match declared_entries answer with
  | inl e =>
      getDependencies fuel packageName depth (Num m) repositoryUrl st
      = (Returned [],
         mkState w (trace st ++ [HttpGet url; fetch_failure_report packageName e]) (pending st))
  | inr entries =>
      exists tree st',
        getDependencies fuel packageName depth (Num m) repositoryUrl st = (Returned tree, st')
        /\ children_resolved
             (fun child => getDependencies fuel child (depth + 1) (Num m) repositoryUrl)
             (map fst entries) (mkState w (trace st ++ [HttpGet url]) (pending st)) tree st'
  end.
Proof.
  intros Hfuel Hdepth.
  assert (Hgt : gt depth (Num m) = false) by (unfold gt; lia).
  rewrite (gt_false_levels _ _ Hgt) in Hfuel.
  destruct fuel as [|fuel]; [lia|].
  rewrite getDependencies_fetch by assumption. cbv zeta.
  destruct (axios_get _ _) as [answer w].
  destruct (declared_entries answer) as [e|entries]; [reflexivity|].
  edestruct (for_of_push_child fuel depth (Num m) repositoryUrl) as (nodes & st' & Hloop & Hres).
  - intros child st0. apply getDependencies_returns. lia.
  - exists nodes, st'. split; [exact Hloop|].
    eapply children_resolved_ext; [|exact Hres].
    intros child st0. apply getDependencies_fuel; lia.
Qed.

(** *** Depth of the result *)

Lemma flat_map_nil {A B} (f : A -> list B) (l : list A) :
  (forall x, In x l -> f x = []) -> flat_map f l = [].
Proof.
  induction l as [|x l IH]; intros H; simpl; [reflexivity|].
  rewrite (H x) by now left. apply IH. intros y Hy. apply H. now right.
Qed.

Lemma nodes_at_depth_below (k : nat) (forest : list DependencyNode) :
  nodes_at_depth (S (S k)) forest
  = flat_map (fun n => nodes_at_depth (S k) (dependencies n)) forest.
Proof. reflexivity. Qed.

Lemma bounded_beyond (n : nat) :
  forall forest k, bounded n forest -> (n < k)%nat -> nodes_at_depth k forest = [].
Proof.
  induction n as [|n IH]; intros forest k Hb Hk.
  - simpl in Hb. subst forest. destruct k as [|[|k]]; [lia | reflexivity | reflexivity].
  - destruct k as [|[|k]]; [lia | lia |].
    rewrite nodes_at_depth_below. apply flat_map_nil. intros node Hin.
    simpl in Hb. rewrite Forall_forall in Hb.
    apply IH; [now apply Hb | lia].
Qed.

Lemma bounded_last_level (n : nat) :
  forall forest node,
    bounded (S n) forest -> In node (nodes_at_depth (S n) forest) -> dependencies node = [].
Proof.
  induction n as [|n IH]; intros forest node Hb Hin.
  - simpl in Hb, Hin. rewrite Forall_forall in Hb. exact (Hb node Hin).
  - rewrite nodes_at_depth_below in Hin. apply in_flat_map in Hin as (parent & Hparent & Hin).
    cbn [bounded] in Hb. rewrite Forall_forall in Hb.
    exact (IH (dependencies parent) node (Hb parent Hparent) Hin).
Qed.

Lemma children_resolved_Forall (call : string -> M (list DependencyNode))
  (P : list DependencyNode -> Prop) :
  (forall child st subDeps st1, call child st = (Returned subDeps, st1) -> P subDeps) ->
  forall names st nodes st',
    children_resolved call names st nodes st' ->
    Forall (fun node => P (dependencies node)) nodes.
Proof.
  intros Hcall names st nodes st' H.
  induction H; constructor; eauto.
Qed.

(** What a call returns has no more levels than remain under the bound. *)
Lemma getDependencies_bounded (n : nat) :
  forall fuel packageName depth m repositoryUrl st tree st',
    levels depth m = n -> (n <= fuel)%nat ->
    getDependencies fuel packageName depth (Num m) repositoryUrl st = (Returned tree, st') ->
    bounded n tree.
Proof.
  induction n as [|n IH]; intros fuel packageName depth m repositoryUrl st tree st' Hn Hfuel Hrun.
  - assert (Hgt : gt depth (Num m) = true) by (unfold gt, levels in *; lia).
    rewrite getDependencies_beyond in Hrun by assumption. now inversion Hrun.
  - assert (Hdepth : (depth <= m)%Z) by (unfold levels in Hn; lia).
    pose proof (getDependencies_resolves fuel packageName depth m repositoryUrl st) as Hres.
    rewrite Hn in Hres. specialize (Hres Hfuel Hdepth). cbv zeta in Hres.
    destruct (axios_get _ _) as [answer w].
    destruct (declared_entries answer) as [e|entries].
    + rewrite Hres in Hrun. inversion Hrun. constructor.
    + destruct Hres as (tree0 & st0 & Hrun0 & Hchildren).
      rewrite Hrun0 in Hrun. inversion Hrun; subst tree0 st0.
      cbn [bounded]. eapply children_resolved_Forall; [|exact Hchildren].
      intros child st1 subDeps st2 Hcall. cbv beta in Hcall.
      eapply (IH fuel); [| |exact Hcall]; unfold levels in *; lia.
Qed.

(** C1. For every bound [d >= 1] and every registry, the call
    [getDependencies(root, 1, d, url)] returns a tree in which no node lies at
    a depth exceeding [d] (the nodes the root call returns being at depth 1),
    and every node at depth [d] has an empty [dependencies] sequence. *)
Theorem getDependencies_depth_bound (d : Z) (fuel : nat) (rootPackage repositoryUrl : string)
  (st : state) :
  (1 <= d)%Z -> (Z.to_nat d <= fuel)%nat ->
  exists tree st',
    getDependencies fuel rootPackage 1 (Num d) repositoryUrl st = (Returned tree, st')
    /\ (forall k, (Z.to_nat d < k)%nat -> nodes_at_depth k tree = [])
    /\ (forall node, In node (nodes_at_depth (Z.to_nat d) tree) -> dependencies node = []).
Proof.
  intros Hd Hfuel.
  assert (Hlevels : levels 1 d = Z.to_nat d) by (unfold levels; f_equal; lia).
  destruct (getDependencies_returns fuel rootPackage 1 d repositoryUrl st) as (tree & st' & Hrun);
    [lia|].
  exists tree, st'. split; [exact Hrun|].
  pose proof (getDependencies_bounded _ _ _ _ _ _ _ _ _ Hlevels Hfuel Hrun) as Hb.
  split.
  - intros k Hk. eapply bounded_beyond; eassumption.
  - intros node Hin. destruct (Z.to_nat d) as [|n] eqn:En; [lia|].
    eapply bounded_last_level; eassumption.
Qed.

(** *** Failures *)

(** C2, as amended. [getDependencies] never raises to its caller, whatever its
    input and the registry. With an integer bound it returns; when the fetch
    of a call fails by an exception (the request is rejected, or the response
    or its body is [undefined] or [null] and cannot be read), the call reports
    the failure on the console and returns the empty sequence; when the fetch
    succeeds, the call returns one node for every declared name, in order,
    each holding what its own nested call returned. So a failure below a node
    leaves that node a leaf and takes away neither its siblings nor its
    ancestors. A body that was not parsed and arrives as a text (or any other
    value that is not an object) raises nothing: the call returns the empty
    sequence all the same, but reports nothing. *)
Theorem getDependencies_never_raises (fuel : nat) (packageName : string) (depth : Z)
  (maxDepth : number) (repositoryUrl : string) (st : state) :
  (forall e, fst (getDependencies fuel packageName depth maxDepth repositoryUrl st) <> Thrown e)
  /\ (forall m, maxDepth = Num m -> (levels depth m <= fuel)%nat ->
      exists tree st',
        getDependencies fuel packageName depth maxDepth repositoryUrl st = (Returned tree, st')
        /\ ((depth <= m)%Z ->
            let url := request_url repositoryUrl packageName in
            let (answer, w) := axios_get url (world st) in
            match declared_entries answer with
            | inl e =>
                tree = []
                /\ st' = mkState w (trace st ++ [HttpGet url; fetch_failure_report packageName e])
                                (pending st)
            | inr entries =>
                map name tree = map fst entries
                /\ children_resolved
                     (fun child => getDependencies fuel child (depth + 1) maxDepth repositoryUrl)
                     (map fst entries) (mkState w (trace st ++ [HttpGet url]) (pending st))
                     tree st'
            end))
  /\ (forall fuel' response data w,
        fuel = S fuel' -> gt depth maxDepth = false ->
        axios_get (request_url repositoryUrl packageName) (world st) = (Fulfilled response, w) ->
        property response "data" = Some data ->
        (forall props, data <> VObj props) -> data <> VUndefined -> data <> VNull ->
        getDependencies fuel packageName depth maxDepth repositoryUrl st
        = (Returned [],
           mkState w (trace st ++ [HttpGet (request_url repositoryUrl packageName)])
                   (pending st))).
Proof.
  split; [intros e; apply getDependencies_never_throws|].
  split.
  2:{ intros fuel' response data w -> Hgt Hget Hdata Hobj Hundef Hnull.
      rewrite getDependencies_fetch by assumption. cbv zeta.
      rewrite Hget. cbn [declared_entries]. rewrite Hdata.
      destruct data; try reflexivity; congruence. }
  intros m -> Hfuel.
  destruct (getDependencies_returns fuel packageName depth m repositoryUrl st Hfuel)
    as (tree & st' & Hrun).
  exists tree, st'. split; [exact Hrun|]. intros Hdepth.
  pose proof (getDependencies_resolves fuel packageName depth m repositoryUrl st Hfuel Hdepth)
    as Hres.
  cbv zeta in *. destruct (axios_get _ _) as [answer w].
  destruct (declared_entries answer) as [e|entries].
  - rewrite Hres in Hrun. inversion Hrun. split; reflexivity.
  - destruct Hres as (tree0 & st0 & Hrun0 & Hchildren).
    rewrite Hrun0 in Hrun. inversion Hrun; subst tree0 st0.
    split; [|exact Hchildren].
    eapply children_resolved_names. exact Hchildren.
Qed.

(** *** Falsy [dependencies] *)

(** The falsy values. *)
Lemma falsy_values (v : value) :
  truthy v = false
  <-> In v [VUndefined; VNull; VBool false; VNum NaN; VNum (Num 0); VStr EmptyString].
Proof.
  split.
  - destruct v as [| |[|]|[|z]|s| |]; simpl; intros H; try discriminate; auto 7.
    + apply negb_false_iff, Z.eqb_eq in H. subst z. auto 7.
    + destruct s; [auto 7|discriminate].
  - simpl. intros [<-|[<-|[<-|[<-|[<-|[<-|[]]]]]]]; reflexivity.
Qed.

(** An object without the key answers [undefined]. *)
Lemma property_absent (props : list (string * value)) (key : string) :
  (forall kv, In kv props -> fst kv <> key) -> property (VObj props) key = Some VUndefined.
Proof.
  intros H. simpl. destruct (find _ props) as [kv|] eqn:E; [|reflexivity].
  apply find_some in E as [Hin Heq]. apply String.eqb_eq in Heq. now contradiction (H kv Hin).
Qed.

(** C10. When the [dependencies] field of the response is falsy (absent or
    [undefined], [null], [0], the empty string, [false]; see [falsy_values] and
    [property_absent]), the call takes it for the empty object: it returns the
    empty sequence, with the request as its only effect and nothing reported. *)
Theorem getDependencies_falsy_dependencies (fuel : nat) (packageName : string) (depth : Z)
  (maxDepth : number) (repositoryUrl : string) (st : state)
  (response data declared : value) (w : W) :
  gt depth maxDepth = false ->
  axios_get (request_url repositoryUrl packageName) (world st) = (Fulfilled response, w) ->
  property response "data" = Some data ->
  property data "dependencies" = Some declared ->
  truthy declared = false ->
  js_or declared empty_object = empty_object
  /\ getDependencies (S fuel) packageName depth maxDepth repositoryUrl st
     = (Returned [],
        mkState w (trace st ++ [HttpGet (request_url repositoryUrl packageName)]) (pending st)).
Proof.
  intros Hgt Hget Hdata Hdeps Hfalsy.
  assert (Hor : js_or declared empty_object = empty_object)
    by (unfold js_or; now rewrite Hfalsy).
  split; [exact Hor|].
  rewrite getDependencies_fetch by assumption. cbv zeta.
  rewrite Hget. cbn [declared_entries]. rewrite Hdata, Hdeps, Hor. reflexivity.
Qed.

(** *** Requests *)

Lemma requests_app (tr1 tr2 : list event) : requests (tr1 ++ tr2) = requests tr1 ++ requests tr2.
Proof. apply flat_map_app. Qed.

Lemma for_of_trace_grows {A B} (items : list A) (body : A -> B -> M B) :
  (forall x acc st, exists ext, trace (snd (body x acc st)) = trace st ++ ext) ->
  forall acc st, exists ext, trace (snd (for_of items body acc st)) = trace st ++ ext.
Proof.
  intros Hb. induction items as [|x items IH]; intros acc st; simpl.
  - exists []. now rewrite app_nil_r.
  - unfold bind. destruct (Hb x acc st) as (ext1 & H1).
    destruct (body x acc st) as [[acc'|e|] st1]; simpl in *; eauto.
    destruct (IH acc' st1) as (ext2 & H2).
    exists (ext1 ++ ext2). now rewrite H2, H1, app_assoc.
Qed.

(** Whatever the fuel and however a call ends, it only adds to the trace. *)
Lemma getDependencies_trace_grows (fuel : nat) :
  forall packageName depth maxDepth repositoryUrl st,
  exists ext,
    trace (snd (getDependencies fuel packageName depth maxDepth repositoryUrl st))
    = trace st ++ ext.
Proof.
  induction fuel as [|fuel IH]; intros packageName depth maxDepth repositoryUrl st;
    destruct (gt depth maxDepth) eqn:Hgt;
    try (rewrite getDependencies_beyond by assumption; exists []; simpl; now rewrite app_nil_r).
  - simpl. rewrite Hgt. exists []. simpl. now rewrite app_nil_r.
  - rewrite getDependencies_fetch by assumption. cbv zeta.
    destruct (axios_get _ _) as [answer w].
    destruct (declared_entries answer) as [e|entries]; [simpl; eauto|].
    edestruct (for_of_trace_grows entries (push_child fuel depth maxDepth repositoryUrl))
      as (ext & Hext).
    + intros entry acc st0. unfold push_child, bind.
      destruct (IH (fst entry) (depth + 1)%Z maxDepth repositoryUrl st0) as (ext & Hext).
      destruct (getDependencies _ _ _ _ _ st0) as [[t|e|] st1]; simpl in *; eauto.
    + rewrite Hext. simpl. rewrite <- app_assoc. eauto.
Qed.

(** A call whose depth test passes starts with its own request. *)
Lemma getDependencies_request_first (fuel : nat) (packageName : string) (depth : Z)
  (maxDepth : number) (repositoryUrl : string) (st : state) :
  gt depth maxDepth = false ->
  exists rest,
    trace (snd (getDependencies (S fuel) packageName depth maxDepth repositoryUrl st))
    = trace st ++ HttpGet (request_url repositoryUrl packageName) :: rest.
Proof.
  intros Hgt. rewrite getDependencies_fetch by assumption. cbv zeta.
  destruct (axios_get _ _) as [answer w].
  destruct (declared_entries answer) as [e|entries]; [simpl; eauto|].
  edestruct (for_of_trace_grows entries (push_child fuel depth maxDepth repositoryUrl))
    as (ext & Hext).
  - intros entry acc st0. unfold push_child, bind.
    destruct (getDependencies_trace_grows fuel (fst entry) (depth + 1)%Z maxDepth
                repositoryUrl st0) as (ext & Hext).
    destruct (getDependencies _ _ _ _ _ st0) as [[t|e|] st1]; simpl in *; eauto.
  - rewrite Hext. simpl. rewrite <- app_assoc. exists ext. reflexivity.
Qed.

Lemma children_resolved_requests (call : string -> M (list DependencyNode))
  (expected : string -> list DependencyNode -> list string) :
  (forall child st subDeps st1,
      call child st = (Returned subDeps, st1) ->
      exists ext, trace st1 = trace st ++ ext /\ requests ext = expected child subDeps) ->
  forall names st nodes st',
    children_resolved call names st nodes st' ->
    exists ext,
      trace st' = trace st ++ ext
      /\ requests ext = flat_map (fun node => expected (name node) (dependencies node)) nodes.
Proof.
  intros Hcall names st nodes st' H.
  induction H as [st|child names st subDeps st1 nodes st2 Hchild _ (ext2 & Htr2 & Hreq2)].
  - exists []. now rewrite app_nil_r.
  - destruct (Hcall _ _ _ _ Hchild) as (ext1 & Htr1 & Hreq1).
    exists (ext1 ++ ext2). split.
    + now rewrite Htr2, Htr1, app_assoc.
    + rewrite requests_app, Hreq1, Hreq2. reflexivity.
Qed.

Lemma expected_requests_each (repositoryUrl : string) (n : nat) (forest : list DependencyNode) :
  flat_map (fun node =>
              expected_requests repositoryUrl n [mkNode (name node) (dependencies node)])
           forest
  = expected_requests repositoryUrl n forest.
Proof.
  destruct n as [|n]; simpl.
  - apply flat_map_nil. reflexivity.
  - induction forest as [|node forest IH]; simpl; [reflexivity|].
    rewrite app_nil_r, IH. reflexivity.
Qed.

(** The requests of a call are those expected of the node it resolves. *)
Lemma getDependencies_requests_of (n : nat) :
  forall fuel packageName depth m repositoryUrl st tree st',
    levels depth m = n -> (n <= fuel)%nat ->
    getDependencies fuel packageName depth (Num m) repositoryUrl st = (Returned tree, st') ->
    exists ext,
      trace st' = trace st ++ ext
      /\ match n with
         | O => ext = []
         | S n' =>
             exists rest,
               ext = HttpGet (request_url repositoryUrl packageName) :: rest
               /\ requests rest = expected_requests repositoryUrl n' tree
         end.
Proof.
  induction n as [|n IH]; intros fuel packageName depth m repositoryUrl st tree st' Hn Hfuel Hrun.
  - assert (Hgt : gt depth (Num m) = true) by (unfold gt, levels in *; lia).
    rewrite getDependencies_beyond in Hrun by assumption. inversion Hrun; subst.
    exists []. now rewrite app_nil_r.
  - assert (Hdepth : (depth <= m)%Z) by (unfold levels in Hn; lia).
    pose proof (getDependencies_resolves fuel packageName depth m repositoryUrl st) as Hres.
    rewrite Hn in Hres. specialize (Hres Hfuel Hdepth). cbv zeta in Hres.
    destruct (axios_get _ _) as [answer w].
    destruct (declared_entries answer) as [e|entries].
    + rewrite Hres in Hrun. inversion Hrun; subst. simpl.
      eexists. split; [reflexivity|]. eexists. split; [reflexivity|].
      simpl. destruct n; reflexivity.
    + destruct Hres as (tree0 & st0 & Hrun0 & Hchildren).
      rewrite Hrun0 in Hrun. inversion Hrun; subst tree0 st0.
      eapply (children_resolved_requests _
                (fun child subDeps => expected_requests repositoryUrl n [mkNode child subDeps]))
        in Hchildren.
      * destruct Hchildren as (ext & Htr & Hreq). simpl in Htr.
        rewrite expected_requests_each in Hreq.
        exists (HttpGet (request_url repositoryUrl packageName) :: ext). split.
        -- rewrite Htr, <- app_assoc. reflexivity.
        -- eauto.
      * intros child st1 subDeps st2 Hcall. cbv beta in Hcall.
        destruct (IH fuel child (depth + 1)%Z m repositoryUrl st1 subDeps st2) as (ext & Htr & Hext);
          [unfold levels in *; lia | lia | exact Hcall |].
        exists ext. split; [exact Htr|].
        destruct n as [|n']; [now subst ext|].
        destruct Hext as (rest & -> & Hrest). simpl. now rewrite Hrest, app_nil_r.
Qed.

(** C6. A call with [depth > maxDepth] returns the empty sequence at once and
    leaves the environment and the trace as they were: no request goes out.
    Any other call begins with its request to [{url}/{name}/latest], before
    anything else it does; and what follows that request, when the call
    returns, are the requests of the nested calls and no other: one for every
    node of the result that lies above the last level, in pre-order. *)
Theorem getDependencies_one_request (fuel : nat) (packageName : string) (depth : Z)
  (maxDepth : number) (repositoryUrl : string) (st : state) :
  (gt depth maxDepth = true ->
   getDependencies fuel packageName depth maxDepth repositoryUrl st = (Returned [], st))
  /\ (gt depth maxDepth = false ->
      exists rest,
        trace (snd (getDependencies (S fuel) packageName depth maxDepth repositoryUrl st))
        = trace st ++ HttpGet (request_url repositoryUrl packageName) :: rest)
  /\ (forall m, maxDepth = Num m -> (depth <= m)%Z -> (levels depth m <= fuel)%nat ->
      exists tree st' rest,
        getDependencies fuel packageName depth maxDepth repositoryUrl st = (Returned tree, st')
        /\ trace st' = trace st ++ HttpGet (request_url repositoryUrl packageName) :: rest
        /\ requests rest = expected_requests repositoryUrl (levels (depth + 1) m) tree).
Proof.
  split; [apply getDependencies_beyond|].
  split; [apply getDependencies_request_first|].
  intros m -> Hdepth Hfuel.
  destruct (getDependencies_returns fuel packageName depth m repositoryUrl st Hfuel)
    as (tree & st' & Hrun).
  assert (Hn : levels depth m = S (levels (depth + 1) m)) by (unfold levels; lia).
  assert (Hfuel' : (S (levels (depth + 1) m) <= fuel)%nat) by lia.
  destruct (getDependencies_requests_of _ _ _ _ _ _ _ _ _ Hn Hfuel' Hrun)
    as (ext & Htr & rest & -> & Hrest).
  exists tree, st', rest. auto.
Qed.

(** *** The scenario of the tests *)

Lemma declares_entries (answer : settled) (declared : value) :
  declares answer declared ->
  declared_entries answer = inr (entries_of (js_or declared empty_object)).
Proof.
  intros (response & data & -> & Hdata & Hdeps). simpl. now rewrite Hdata, Hdeps.
Qed.

(** A call at the last level whose package declares nothing: a request, and
    the empty sequence. *)
Lemma getDependencies_no_dependencies (fuel : nat) (packageName : string) (depth : Z)
  (maxDepth : number) (repositoryUrl : string) (st : state) :
  gt depth maxDepth = false ->
  (declares (fst (axios_get (request_url repositoryUrl packageName) (world st))) (VObj [])
   \/ declares (fst (axios_get (request_url repositoryUrl packageName) (world st))) VUndefined) ->
  getDependencies (S fuel) packageName depth maxDepth repositoryUrl st
  = (Returned [],
     mkState (snd (axios_get (request_url repositoryUrl packageName) (world st)))
             (trace st ++ [HttpGet (request_url repositoryUrl packageName)]) (pending st)).
Proof.
  intros Hgt H. rewrite getDependencies_fetch by assumption. cbv zeta.
  destruct (axios_get _ _) as [answer w]. simpl in H.
  destruct H as [H|H]; rewrite (declares_entries _ _ H); reflexivity.
Qed.

(** C7. When the registry answers the root package with dependencies
    [{dep1: {}, dep2: {}}] and answers [dep1] and [dep2] with empty or absent
    dependencies, [getDependencies(root, 1, 2, url)] returns exactly
    [[{name: "dep1", dependencies: []}, {name: "dep2", dependencies: []}]]:
    the children stand in the order of the response's fields, and the requests
    go out for the root, then [dep1], then [dep2], each child resolved before
    the next one begins. *)
Theorem getDependencies_two_leaves (fuel : nat) (rootPackage repositoryUrl : string) (st : state) :
  (forall w, declares (fst (axios_get (request_url repositoryUrl rootPackage) w))
                      (VObj [("dep1", VObj []); ("dep2", VObj [])])) ->
  (forall w, declares (fst (axios_get (request_url repositoryUrl "dep1") w)) (VObj [])
             \/ declares (fst (axios_get (request_url repositoryUrl "dep1") w)) VUndefined) ->
  (forall w, declares (fst (axios_get (request_url repositoryUrl "dep2") w)) (VObj [])
             \/ declares (fst (axios_get (request_url repositoryUrl "dep2") w)) VUndefined) ->
  (2 <= fuel)%nat ->
  exists st',
    getDependencies fuel rootPackage 1 (Num 2) repositoryUrl st
    = (Returned [mkNode "dep1" []; mkNode "dep2" []], st')
    /\ trace st' = trace st ++ [HttpGet (request_url repositoryUrl rootPackage);
                               HttpGet (request_url repositoryUrl "dep1");
                               HttpGet (request_url repositoryUrl "dep2")].
Proof.
  intros Hroot Hdep1 Hdep2 Hfuel.
  destruct fuel as [|[|fuel]]; [lia | lia |].
  rewrite getDependencies_fetch by reflexivity. cbv zeta.
  specialize (Hroot (world st)).
  destruct (axios_get (request_url repositoryUrl rootPackage) (world st)) as [answer w].
  cbn [fst] in Hroot. rewrite (declares_entries _ _ Hroot).
  change (entries_of (js_or (VObj [("dep1", VObj []); ("dep2", VObj [])]) empty_object))
    with [("dep1", VObj []); ("dep2", VObj [])].
  cbn [for_of]. unfold bind at 1. unfold push_child at 1. unfold bind at 1. cbn [fst].
  rewrite getDependencies_no_dependencies by (reflexivity || apply Hdep1).
  unfold ret at 1. unfold bind at 1. unfold push_child at 1. unfold bind at 1. cbn [fst].
  rewrite getDependencies_no_dependencies by (reflexivity || apply Hdep2).
  unfold ret. cbn [app trace]. eexists. split; [reflexivity|].
  cbn [trace]. rewrite <- !app_assoc. reflexivity.
Qed.

(** *** The render pipeline *)

Lemma app_two {A} (l : list A) (a b : A) : (l ++ [a]) ++ [b] = l ++ [a; b].
Proof. now rewrite <- app_assoc. Qed.

Lemma app_three {A} (l : list A) (a b c : A) : ((l ++ [a]) ++ [b]) ++ [c] = l ++ [a; b; c].
Proof. now rewrite <- !app_assoc. Qed.

(** The synchronous body: the write, then either the report of its failure
    or the start of the vector conversion, whose callback is left pending. *)
Lemma generateImageFromDot_run (dotString outputFilePath : string)
  (visualizerPath : option string) (st : state) :
  generateImageFromDot dotString outputFilePath visualizerPath st
  = let dotFilePath := outputFilePath +:+ ".dot" in
    let (failure, w) := fs_writeFileSync dotFilePath dotString (world st) in
    match failure with
    | Some e =>
        (Returned tt,
         mkState w
           (trace st ++ [WriteFile dotFilePath dotString "utf8";
                         ConsoleError ["Ошибка при генерации изображения:"; message e]])
           (pending st))
    | None =>
        (Returned tt,
         mkState w
           (trace st ++ [WriteFile dotFilePath dotString "utf8";
                         ConsoleLog ["DOT-граф сохранен в: " +:+ dotFilePath];
                         Exec (svg_command visualizerPath outputFilePath)])
           (pending st ++ [(svg_command visualizerPath outputFilePath,
                            SvgDone outputFilePath (outputFilePath +:+ ".svg"))]))
    end.
Proof.
  unfold generateImageFromDot, try_catch, bind, writeFileSync, console_log, console_error,
    exec, emit, svg_command, visualizer.
  cbv zeta.
  destruct (fs_writeFileSync (outputFilePath +:+ ".dot") dotString (world st)) as [[e|] w];
    cbn [world trace pending]; [rewrite app_two | rewrite app_three]; reflexivity.
Qed.

Lemma generateImageFromDot_returns (dotString outputFilePath : string)
  (visualizerPath : option string) (st : state) :
  fst (generateImageFromDot dotString outputFilePath visualizerPath st) = Returned tt.
Proof.
  rewrite generateImageFromDot_run. cbv zeta.
  destruct (fs_writeFileSync _ _ _) as [[e|] w]; reflexivity.
Qed.

Lemma run_callback_svg (base : string) (r : exec_result) (st : state) :
  run_callback (SvgDone base (base +:+ ".svg")) r st
  = (Returned tt,
     mkState (world st) (trace st ++ svg_done_events base r)
       (pending st ++ if succeeded r then [(png_command base, PngDone (base +:+ ".png"))]
                      else [])).
Proof.
  unfold run_callback, svg_done_events, succeeded, png_command.
  destruct (exec_error r) as [error|].
  - unfold console_error, emit. now rewrite app_nil_r.
  - cbn [truthy]. destruct (exec_stderr r =? EmptyString)%string; cbn [negb].
    + unfold bind, console_log, exec, emit. cbn [world trace pending].
      now rewrite app_two.
    + unfold console_error, emit. now rewrite app_nil_r.
Qed.

Lemma run_callback_png (base : string) (r : exec_result) (st : state) :
  run_callback (PngDone (base +:+ ".png")) r st
  = (Returned tt, mkState (world st) (trace st ++ png_done_events base r) (pending st)).
Proof.
  unfold run_callback, png_done_events.
  destruct (exec_error r) as [error|]; [reflexivity|].
  cbn [truthy]. destruct (exec_stderr r =? EmptyString)%string; reflexivity.
Qed.



Lemma event_loop_pending (fuel : nat) (command : string) (cb : callback)
  (rest : list (string * callback)) (st : state) :
  pending st = (command, cb) :: rest ->
  event_loop (S fuel) st
  = let (r, w) := child_process command (world st) in
    (run_callback cb r ;;; event_loop fuel) (mkState w (trace st) rest).
Proof. intros H. simpl. rewrite H. reflexivity. Qed.

Lemma event_loop_idle (fuel : nat) (st : state) :
  pending st = [] -> event_loop fuel st = (Returned tt, st).
Proof. intros H. destruct fuel; simpl; rewrite H; reflexivity. Qed.

Lemma render_run (fuel : nat) (dotString base : string) (visualizerPath : option string)
  (st : state) :
  pending st = [] -> (2 <= fuel)%nat ->
  render fuel dotString base visualizerPath st
  = (Returned tt,
     mkState (snd (render_events dotString base visualizerPath (world st)))
             (trace st ++ fst (render_events dotString base visualizerPath (world st)))
             []).
Proof.
  intros Hidle Hfuel. destruct fuel as [|[|fuel]]; [lia | lia |].
  unfold render, render_events. unfold bind at 1.
  rewrite generateImageFromDot_run. cbv zeta. rewrite Hidle.
  destruct (fs_writeFileSync (base +:+ ".dot") dotString (world st)) as [[e|] w1].
  - now rewrite event_loop_idle.
  - erewrite event_loop_pending by reflexivity. cbn [world trace app].
    destruct (child_process (svg_command visualizerPath base) w1) as [svg w2].
    unfold bind at 1. rewrite run_callback_svg. cbn [world trace pending app].
    destruct (succeeded svg).
    + erewrite event_loop_pending by reflexivity. cbn [world trace].
      destruct (child_process (png_command base) w2) as [png w3].
      unfold bind at 1. rewrite run_callback_png. cbn [world trace pending].
      rewrite event_loop_idle by reflexivity. cbn [fst snd].
      now rewrite <- !app_assoc.
    + rewrite event_loop_idle by reflexivity. cbn [fst snd].
      now rewrite <- !app_assoc.
Qed.

Lemma commands_app (tr1 tr2 : list event) : commands (tr1 ++ tr2) = commands tr1 ++ commands tr2.
Proof. apply flat_map_app. Qed.

Lemma commands_svg_done (base : string) (r : exec_result) :
  commands (svg_done_events base r) = if succeeded r then [png_command base] else [].
Proof.
  unfold svg_done_events, succeeded.
  destruct (exec_error r); [reflexivity|].
  destruct (exec_stderr r =? EmptyString)%string; reflexivity.
Qed.

Lemma commands_png_done (base : string) (r : exec_result) :
  commands (png_done_events base r) = [].
Proof.
  unfold png_done_events.
  destruct (exec_error r); [reflexivity|].
  destruct (exec_stderr r =? EmptyString)%string; reflexivity.
Qed.

Lemma failed_not_succeeded (r : exec_result) :
  exec_error r <> None \/ exec_stderr r <> EmptyString -> succeeded r = false.
Proof.
  unfold succeeded. intros [H|H]; destruct (exec_error r); try reflexivity.
  - now contradiction H.
  - now apply String.eqb_neq.
Qed.

Lemma length_append (a b : string) :
  String.length (a +:+ b) = (String.length a + String.length b)%nat.
Proof. induction a as [|ch a IH]; simpl; [reflexivity | now rewrite IH]. Qed.

(** The two conversions are never the same command. *)
Lemma svg_command_not_png (visualizerPath : option string) (base : string) :
  svg_command visualizerPath base <> png_command base.
Proof.
  intros H. apply (f_equal String.length) in H.
  unfold svg_command, png_command in H.
  repeat (rewrite length_append in H; cbn [String.length] in H).
  lia.
Qed.

(** C4. When the vector conversion fails (its callback receives an error, as
    on a nonzero exit, or a non-empty stderr), the run reports it and ends:
    the trace closes with that report, nothing is left pending, and the only
    command ever started is the vector conversion; the raster conversion is
    not started. *)
Theorem render_stops_after_failed_svg (fuel : nat) (dotString base : string)
  (visualizerPath : option string) (st : state) (w1 w2 : W) (svg : exec_result) :
  pending st = [] -> (2 <= fuel)%nat ->
  fs_writeFileSync (base +:+ ".dot") dotString (world st) = (None, w1) ->
  child_process (svg_command visualizerPath base) w1 = (svg, w2) ->
  exec_error svg <> None \/ exec_stderr svg <> EmptyString ->
  exists report st',
    render fuel dotString base visualizerPath st = (Returned tt, st')
    /\ st' = mkState w2
               (trace st ++ [WriteFile (base +:+ ".dot") dotString "utf8";
                             ConsoleLog ["DOT-граф сохранен в: " +:+ (base +:+ ".dot")];
                             Exec (svg_command visualizerPath base);
                             ConsoleError [report]])
               []
    /\ commands (trace st') = commands (trace st) ++ [svg_command visualizerPath base]
    /\ (~ In (Exec (png_command base)) (trace st) -> ~ In (Exec (png_command base)) (trace st')).
Proof.
  intros Hidle Hfuel Hwrite Hsvg Hfailed.
  pose proof (failed_not_succeeded svg Hfailed) as Hnot.
  rewrite render_run by assumption. unfold render_events.
  rewrite Hwrite, Hsvg, Hnot. cbn [fst snd].
  assert (Hreport : exists report, svg_done_events base svg = [ConsoleError [report]]).
  { unfold svg_done_events. unfold succeeded in Hnot.
    destruct (exec_error svg); [eauto|]. rewrite Hnot. eauto. }
  destruct Hreport as (report & Hreport). rewrite Hreport. cbn [app].
  eexists report, _. split; [reflexivity|]. split; [reflexivity|]. cbn [trace]. split.
  - rewrite commands_app. reflexivity.
  - intros Hbefore Hin. apply in_app_or in Hin as [Hin|Hin]; [now apply Hbefore|].
    simpl in Hin. destruct Hin as [H|[H|[H|[H|[]]]]]; try discriminate.
    injection H as H. exact (svg_command_not_png _ _ H).
Qed.

(** C5. A run first writes the graph text as it is to [{base}.dot]. When that
    write fails, the run reports the error and starts no command. Otherwise
    it starts exactly the command [{visualizer} -Tsvg {base}.dot -o {base}.svg]
    and, when that step succeeds, exactly one more command, the conversion of
    [{base}.svg] into [{base}.png]; when the step fails, none. *)
Theorem render_commands (fuel : nat) (dotString base : string)
  (visualizerPath : option string) (st : state) :
  pending st = [] -> (2 <= fuel)%nat ->
  exists st' rest,
    render fuel dotString base visualizerPath st = (Returned tt, st')
    /\ pending st' = []
    /\ trace st' = trace st ++ WriteFile (base +:+ ".dot") dotString "utf8" :: rest
    /\ let (failure, w1) := fs_writeFileSync (base +:+ ".dot") dotString (world st) in
       match failure with
       | Some e =>
           rest = [ConsoleError ["Ошибка при генерации изображения:"; message e]]
           /\ commands rest = []
       | None =>
           let (svg, w2) := child_process (svg_command visualizerPath base) w1 in
           commands rest
           = svg_command visualizerPath base
               :: (if succeeded svg then [png_command base] else [])
       end.
Proof.
  intros Hidle Hfuel.
  rewrite render_run by assumption. unfold render_events.
  destruct (fs_writeFileSync (base +:+ ".dot") dotString (world st)) as [[e|] w1].
  - eexists _, _. cbn [fst snd trace pending].
    split; [reflexivity|]. split; [reflexivity|]. split; [reflexivity|].
    split; reflexivity.
  - destruct (child_process (svg_command visualizerPath base) w1) as [svg w2].
    pose proof (commands_svg_done base svg) as Hsvg.
    destruct (succeeded svg).
    + destruct (child_process (png_command base) w2) as [png w3].
      eexists _, _. cbn [fst snd trace pending app].
      split; [reflexivity|]. split; [reflexivity|]. split; [reflexivity|].
      change (commands (?a :: Exec ?c :: ?l)) with (c :: commands l).
      now rewrite commands_app, Hsvg, commands_png_done.
    + eexists _, _. cbn [fst snd trace pending app].
      split; [reflexivity|]. split; [reflexivity|]. split; [reflexivity|].
      change (commands (?a :: Exec ?c :: ?l)) with (c :: commands l).
      now rewrite Hsvg.
Qed.


(** *** The resolver, beyond the specification *)

Lemma for_of_related {A B} (R : state -> state -> Prop) (items : list A) (body : A -> B -> M B) :
  (forall st, R st st) ->
  (forall st1 st2 st3, R st1 st2 -> R st2 st3 -> R st1 st3) ->
  (forall x acc st, R st (snd (body x acc st))) ->
  forall acc st, R st (snd (for_of items body acc st)).
Proof.
  intros Hrefl Htrans Hb. induction items as [|x items IH]; intros acc st; simpl.
  - apply Hrefl.
  - unfold bind. specialize (Hb x acc st).
    destruct (body x acc st) as [[acc'|e|] st1]; simpl in *; try assumption.
    eapply Htrans; [exact Hb | apply IH].
Qed.

Lemma resolver_step_refl (st : state) : resolver_step st st.
Proof. split; [exists []; split; [now rewrite app_nil_r | constructor] | reflexivity]. Qed.

Lemma resolver_step_trans (st1 st2 st3 : state) :
  resolver_step st1 st2 -> resolver_step st2 st3 -> resolver_step st1 st3.
Proof.
  intros [(e1 & H1 & F1) P1] [(e2 & H2 & F2) P2]. split; [|congruence].
  exists (e1 ++ e2). split; [now rewrite H2, H1, app_assoc | now apply Forall_app].
Qed.

Lemma getDependencies_resolver_step (fuel : nat) :
  forall packageName depth maxDepth repositoryUrl st,
    resolver_step st (snd (getDependencies fuel packageName depth maxDepth repositoryUrl st)).
Proof.
  induction fuel as [|fuel IH]; intros packageName depth maxDepth repositoryUrl st;
    destruct (gt depth maxDepth) eqn:Hgt;
    try (rewrite getDependencies_beyond by assumption; apply resolver_step_refl).
  - simpl. rewrite Hgt. apply resolver_step_refl.
  - rewrite getDependencies_fetch by assumption. cbv zeta.
    destruct (axios_get _ _) as [answer w].
    destruct (declared_entries answer) as [e|entries].
    + split; [|reflexivity]. eexists. split; [reflexivity|].
      repeat constructor.
    + eapply resolver_step_trans with (st2 := mkState w (trace st ++ [HttpGet _]) (pending st)).
      * split; [|reflexivity]. eexists. split; [reflexivity|]. repeat constructor.
      * apply for_of_related.
        -- apply resolver_step_refl.
        -- apply resolver_step_trans.
        -- intros entry acc st0. unfold push_child, bind.
           specialize (IH (fst entry) (depth + 1)%Z maxDepth repositoryUrl st0).
           destruct (getDependencies _ _ _ _ _ st0) as [[t|e|] st1]; simpl in *; exact IH.
Qed.

Lemma resolver_events_quiet (ext : list event) :
  Forall resolver_event ext -> commands ext = [] /\ writes ext = [].
Proof.
  induction 1 as [|ev ext Hev _ [IHc IHw]]; [now split|].
  destruct ev; simpl in Hev; try contradiction; simpl; now split.
Qed.

(** X1. [getDependencies] touches the outside only through requests and the
    console: whatever its input, the registry and the way it ends, all it
    adds to the trace are requests and failure reports; it writes no file,
    starts no process and leaves the pending callbacks alone. *)
Theorem getDependencies_only_requests (fuel : nat) (packageName : string) (depth : Z)
  (maxDepth : number) (repositoryUrl : string) (st : state) :
  exists ext,
    trace (snd (getDependencies fuel packageName depth maxDepth repositoryUrl st))
    = trace st ++ ext
    /\ Forall resolver_event ext
    /\ commands ext = [] /\ writes ext = []
    /\ pending (snd (getDependencies fuel packageName depth maxDepth repositoryUrl st))
       = pending st.
Proof.
  destruct (getDependencies_resolver_step fuel packageName depth maxDepth repositoryUrl st)
    as [(ext & Htr & Hall) Hpending].
  exists ext. split; [exact Htr|]. split; [exact Hall|].
  destruct (resolver_events_quiet ext Hall) as [Hc Hw]. auto.
Qed.

Lemma getDependencies_NaN_levels (fuel : nat) :
  (forall url w, exists entry entries,
      declared_entries (fst (axios_get url w)) = inr (entry :: entries)) ->
  forall packageName depth repositoryUrl st,
    fst (getDependencies fuel packageName depth NaN repositoryUrl st) = OutOfFuel
    /\ exists ext,
         trace (snd (getDependencies fuel packageName depth NaN repositoryUrl st))
         = trace st ++ ext
         /\ List.length (requests ext) = fuel.
Proof.
  intros Hdeclares.
  induction fuel as [|fuel IH]; intros packageName depth repositoryUrl st.
  - simpl. split; [reflexivity|]. exists []. now rewrite app_nil_r.
  - rewrite getDependencies_fetch by reflexivity. cbv zeta.
    destruct (Hdeclares (request_url repositoryUrl packageName) (world st))
      as (entry & entries & Hentries).
    destruct (axios_get _ _) as [answer w]. cbn [fst] in Hentries. rewrite Hentries.
    set (st0 := mkState w (trace st ++ [HttpGet (request_url repositoryUrl packageName)])
                        (pending st)).
    destruct (IH (fst entry) (depth + 1)%Z repositoryUrl st0) as (Hout & ext & Htr & Hlen).
    assert (Hloop : for_of (entry :: entries) (push_child fuel depth NaN repositoryUrl) [] st0
                    = (OutOfFuel,
                       snd (getDependencies fuel (fst entry) (depth + 1) NaN repositoryUrl st0))).
    { cbn [for_of]. unfold bind, push_child, bind.
      destruct (getDependencies fuel (fst entry) (depth + 1) NaN repositoryUrl st0)
        as [[t|e|] st1]; simpl in Hout; try discriminate. reflexivity. }
    rewrite Hloop. split; [reflexivity|].
    exists (HttpGet (request_url repositoryUrl packageName) :: ext).
    cbn [snd]. split.
    + rewrite Htr. subst st0. cbn [trace]. now rewrite <- app_assoc.
    + simpl. now rewrite Hlen.
Qed.

(** X2. A bound that is [NaN] bounds nothing: the depth test never passes,
    and against a registry in which every package declares a dependency the
    call does not return. However many levels the model is given, it uses
    them all, with one more request at each level. *)
Theorem getDependencies_NaN_unbounded (fuel : nat) (packageName : string) (depth : Z)
  (repositoryUrl : string) (st : state) :
  (forall url w, exists entry entries,
      declared_entries (fst (axios_get url w)) = inr (entry :: entries)) ->
  (forall d, gt d NaN = false)
  /\ fst (getDependencies fuel packageName depth NaN repositoryUrl st) = OutOfFuel
  /\ exists ext,
       trace (snd (getDependencies fuel packageName depth NaN repositoryUrl st))
       = trace st ++ ext
       /\ List.length (requests ext) = fuel.
Proof.
  intros Hdeclares. split; [reflexivity|].
  now apply getDependencies_NaN_levels.
Qed.

(** X3. There is no cycle detection: when every package declares the one
    dependency [child] (as a package that depends on itself does), the result
    is a chain with that name once per level down to the bound. *)
Theorem getDependencies_chain (child : string) (n : nat) :
  (forall url w, exists v, declared_entries (fst (axios_get url w)) = inr [(child, v)]) ->
  forall fuel packageName depth m repositoryUrl st,
    levels depth m = n -> (n <= fuel)%nat ->
    fst (getDependencies fuel packageName depth (Num m) repositoryUrl st)
    = Returned (chain n child).
Proof.
  intros Hdeclares.
  induction n as [|n IH]; intros fuel packageName depth m repositoryUrl st Hn Hfuel.
  - assert (Hgt : gt depth (Num m) = true) by (unfold gt, levels in *; lia).
    now rewrite getDependencies_beyond.
  - assert (Hgt : gt depth (Num m) = false) by (unfold gt, levels in *; lia).
    destruct fuel as [|fuel]; [lia|].
    rewrite getDependencies_fetch by assumption. cbv zeta.
    destruct (Hdeclares (request_url repositoryUrl packageName) (world st)) as (v & Hentries).
    destruct (axios_get _ _) as [answer w]. cbn [fst] in Hentries. rewrite Hentries.
    cbn [for_of]. unfold bind at 1. unfold push_child at 1. unfold bind at 1. cbn [fst].
    match goal with |- context [getDependencies fuel ?c ?d (Num m) ?u ?s] =>
      pose proof (IH fuel c d m u s) as Hsub;
      destruct (getDependencies fuel c d (Num m) u s) as [[t|e|] st1]
    end; (rewrite gt_false_levels in Hn by assumption);
      (specialize (Hsub ltac:(lia) ltac:(lia))); simpl in Hsub; try discriminate.
    injection Hsub as ->. reflexivity.
Qed.

(** *** The order of the children *)

Lemma insert_by_index_permutation (p : N * (string * value)) (sorted : list (N * (string * value))) :
  Permutation (insert_by_index p sorted) (p :: sorted).
Proof.
  induction sorted as [|q rest IH]; simpl; [reflexivity|].
  destruct (fst p <? fst q)%N; [reflexivity|].
  rewrite IH. apply perm_swap.
Qed.

Lemma own_props_permutation (props : list (string * value)) :
  Permutation (own_props props) props.
Proof.
  unfold own_props, named_props.
  induction props as [|kv props IH]; simpl; [reflexivity|].
  destruct (array_index (fst kv)) as [n|].
  - rewrite insert_by_index_permutation. simpl. now constructor.
  - rewrite <- Permutation_middle. now constructor.
Qed.

Lemma index_props_none (props : list (string * value)) :
  (forall kv, In kv props -> array_index (fst kv) = None) -> index_props props = [].
Proof.
  induction props as [|kv props IH]; intros H; simpl; [reflexivity|].
  rewrite (H kv) by now left. apply IH. intros kv' Hin. apply H. now right.
Qed.

Lemma own_props_named (props : list (string * value)) :
  (forall kv, In kv props -> array_index (fst kv) = None) -> own_props props = props.
Proof.
  intros H. unfold own_props, named_props. rewrite index_props_none by assumption. simpl.
  induction props as [|kv props IH]; simpl; [reflexivity|].
  rewrite (H kv) by now left. f_equal. apply IH. intros kv' Hin. apply H. now right.
Qed.

Lemma insert_by_index_sorted (p : N * (string * value)) (sorted : list (N * (string * value))) :
  Sorted by_index sorted ->
  Sorted by_index (insert_by_index p sorted).
Proof.
  induction sorted as [|q rest IH]; intros Hs; simpl.
  - repeat constructor.
  - destruct (fst p <? fst q)%N eqn:E.
    + constructor; [exact Hs|]. constructor. apply N.ltb_lt in E. unfold by_index. lia.
    + apply N.ltb_ge in E. inversion Hs as [|? ? Hrest Hhd]; subst.
      constructor; [now apply IH|].
      destruct rest as [|r rest]; simpl; [now constructor|].
      destruct (fst p <? fst r)%N; constructor; [exact E|].
      now inversion Hhd.
Qed.

Lemma index_props_sorted (props : list (string * value)) :
  Sorted by_index (index_props props).
Proof.
  induction props as [|kv props IH]; simpl; [constructor|].
  destruct (array_index (fst kv)); [now apply insert_by_index_sorted | exact IH].
Qed.

Lemma index_props_indices (props : list (string * value)) :
  Forall (fun p => array_index (fst (snd p)) = Some (fst p)) (index_props props).
Proof.
  induction props as [|kv props IH]; simpl; [constructor|].
  destruct (array_index (fst kv)) as [n|] eqn:E; [|exact IH].
  eapply Permutation_Forall; [symmetry; apply insert_by_index_permutation|].
  constructor; [exact E | exact IH].
Qed.

(** A call whose fetch declares [entries] returns one node per entry, in order. *)
Lemma getDependencies_names (fuel : nat) (packageName : string) (depth m : Z)
  (repositoryUrl : string) (st : state) (entries : list (string * value)) :
  (levels depth m <= fuel)%nat -> (depth <= m)%Z ->
  declared_entries (fst (axios_get (request_url repositoryUrl packageName) (world st)))
  = inr entries ->
  exists tree st',
    getDependencies fuel packageName depth (Num m) repositoryUrl st = (Returned tree, st')
    /\ map name tree = map fst entries.
Proof.
  intros Hfuel Hdepth Hentries.
  pose proof (getDependencies_resolves fuel packageName depth m repositoryUrl st Hfuel Hdepth)
    as Hres.
  cbv zeta in Hres. destruct (axios_get _ _) as [answer w]. cbn [fst] in Hentries.
  rewrite Hentries in Hres. destruct Hres as (tree & st' & Hrun & Hchildren).
  exists tree, st'. split; [exact Hrun|].
  eapply children_resolved_names. exact Hchildren.
Qed.

(** X4. The children stand in the order of [Object.entries], which is the
    order of the response's fields only when no field name is an array index:
    names that are array indices come first, in ascending numeric order, the
    others follow in field order. No declared name is lost or repeated. *)
Theorem getDependencies_children_order (fuel : nat) (packageName : string) (depth m : Z)
  (repositoryUrl : string) (st : state) (props : list (string * value)) :
  (levels depth m <= fuel)%nat -> (depth <= m)%Z ->
  declares (fst (axios_get (request_url repositoryUrl packageName) (world st))) (VObj props) ->
  exists tree st',
    getDependencies fuel packageName depth (Num m) repositoryUrl st = (Returned tree, st')
    /\ Permutation (map name tree) (map fst props)
    /\ ((forall kv, In kv props -> array_index (fst kv) = None) ->
        map name tree = map fst props)
    /\ exists indices : list (N * (string * value)),
         map name tree
         = map (fun p => fst (snd p)) indices
             ++ filter (fun key => match array_index key with Some _ => false | None => true end)
                       (map fst props)
         /\ Sorted by_index indices
         /\ Forall (fun p => array_index (fst (snd p)) = Some (fst p)) indices.
Proof.
  intros Hfuel Hdepth Hdeclares.
  apply declares_entries in Hdeclares.
  change (entries_of (js_or (VObj props) empty_object)) with (own_props props) in Hdeclares.
  destruct (getDependencies_names _ _ _ _ _ _ _ Hfuel Hdepth Hdeclares)
    as (tree & st' & Hrun & Hnames).
  exists tree, st'. split; [exact Hrun|]. rewrite Hnames. split; [|split].
  - apply Permutation_map, own_props_permutation.
  - intros Hnone. now rewrite own_props_named.
  - exists (index_props props). split; [|split].
    + unfold own_props, named_props. rewrite map_app, map_map. f_equal.
      clear. induction props as [|kv props IH]; simpl; [reflexivity|].
      destruct (array_index (fst kv)); simpl; now rewrite IH.
    + apply index_props_sorted.
    + apply index_props_indices.
Qed.

(** X5. When the response gives [dependencies] as an array (of names, say),
    the children are named after the indices, not after the elements. *)
Theorem getDependencies_array_dependencies (fuel : nat) (packageName : string) (depth m : Z)
  (repositoryUrl : string) (st : state) (items : list value) :
  (levels depth m <= fuel)%nat -> (depth <= m)%Z ->
  declares (fst (axios_get (request_url repositoryUrl packageName) (world st))) (VArr items) ->
  exists tree st',
    getDependencies fuel packageName depth (Num m) repositoryUrl st = (Returned tree, st')
    /\ map name tree = map index_key (seq 0 (List.length items)).
Proof.
  intros Hfuel Hdepth Hdeclares.
  apply declares_entries in Hdeclares.
  change (entries_of (js_or (VArr items) empty_object)) with (indexed 0 items) in Hdeclares.
  destruct (getDependencies_names _ _ _ _ _ _ _ Hfuel Hdepth Hdeclares)
    as (tree & st' & Hrun & Hnames).
  exists tree, st'. split; [exact Hrun|]. rewrite Hnames.
  generalize 0%nat. clear. induction items as [|v items IH]; intros i; simpl; [reflexivity|].
  now rewrite IH.
Qed.

(** X6. A body that is not an object but can be read (a text that was not
    parsed, a number, a boolean, an array) has no [dependencies]: the package
    is a leaf and nothing is reported, as for a package that declares none. *)
Theorem getDependencies_unparsed_body (fuel : nat) (packageName : string) (depth : Z)
  (maxDepth : number) (repositoryUrl : string) (st : state) (response data : value) (w : W) :
  gt depth maxDepth = false ->
  axios_get (request_url repositoryUrl packageName) (world st) = (Fulfilled response, w) ->
  property response "data" = Some data ->
  (forall props, data <> VObj props) -> data <> VUndefined -> data <> VNull ->
  getDependencies (S fuel) packageName depth maxDepth repositoryUrl st
  = (Returned [],
     mkState w (trace st ++ [HttpGet (request_url repositoryUrl packageName)]) (pending st)).
Proof.
  intros Hgt Hget Hdata Hobj Hundef Hnull.
  rewrite getDependencies_fetch by assumption. cbv zeta.
  rewrite Hget. cbn [declared_entries]. rewrite Hdata.
  destruct data; try reflexivity; congruence.
Qed.

(** *** The render pipeline, beyond the specification *)

(** X7. A run of the pipeline reports at most one error, and none exactly
    when the write and both conversions succeed; it prints one notice for
    every step that succeeded before the first failure. A step is attempted
    only when the steps before it succeeded. *)
Theorem render_one_report (fuel : nat) (dotString base : string)
  (visualizerPath : option string) (st : state) :
  pending st = [] -> (2 <= fuel)%nat ->
  exists st' ext,
    render fuel dotString base visualizerPath st = (Returned tt, st')
    /\ trace st' = trace st ++ ext
    /\ let (failure, w1) := fs_writeFileSync (base +:+ ".dot") dotString (world st) in
       match failure with
       | Some _ => reports ext = 1%nat /\ notices ext = 0%nat /\ commands ext = []
       | None =>
           let (svg, w2) := child_process (svg_command visualizerPath base) w1 in
           if succeeded svg then
             let (png, w3) := child_process (png_command base) w2 in
             if succeeded png then reports ext = 0%nat /\ notices ext = 3%nat
             else reports ext = 1%nat /\ notices ext = 2%nat
           else reports ext = 1%nat /\ notices ext = 1%nat
       end.
Proof.
  intros Hidle Hfuel. rewrite render_run by assumption.
  eexists _, _. split; [reflexivity|]. cbn [trace]. split; [reflexivity|].
  unfold render_events.
  destruct (fs_writeFileSync (base +:+ ".dot") dotString (world st)) as [[e|] w1].
  - repeat split.
  - destruct (child_process (svg_command visualizerPath base) w1) as [svg w2].
    destruct (succeeded svg) eqn:Esvg.
    + destruct (child_process (png_command base) w2) as [png w3]. cbn [fst].
      unfold svg_done_events, png_done_events.
      unfold succeeded in Esvg. destruct (exec_error svg); [discriminate|]. rewrite Esvg.
      unfold succeeded. destruct (exec_error png); [split; reflexivity|].
      destruct (exec_stderr png =? EmptyString)%string; split; reflexivity.
    + cbn [fst]. unfold svg_done_events. unfold succeeded in Esvg.
      destruct (exec_error svg); [split; reflexivity|]. rewrite Esvg. split; reflexivity.
Qed.

(** *** Reading the configuration *)

Lemma listen_rows (rows : list CsvRow.t) (tail : list stream_event) (config : Config.t) :
  listen (map OnData rows ++ tail) config
  = listen tail (fold_left (fun c row => on_data row c) rows config).
Proof.
  revert config. induction rows as [|row rows IH]; intros config; simpl; [reflexivity|].
  apply IH.
Qed.

Lemma fold_on_data (rows : list CsvRow.t) (config : Config.t) :
  fold_left (fun c row => on_data row c) rows config
  = match rev rows with
    | [] => config
    | row :: _ => on_data row Config.empty
    end.
Proof.
  induction rows as [|row rows IH] using rev_ind; [reflexivity|].
  rewrite fold_left_app, rev_app_distr. reflexivity.
Qed.

(** X8. [readConfig] keeps the last row only: every row assigns all five
    fields, so that of the rows before ['end'] the last one decides, and no
    row leaves the empty object. An ['error'] before ['end'] rejects the
    promise, whatever rows came first; a stream that neither ends nor fails
    leaves it pending. Reading the configuration prints nothing. *)
Theorem readConfig_last_row (filePath : string) (st : state) (rows : list CsvRow.t)
  (later : list stream_event) (error : Error) :
  (fst (csv_stream filePath (world st)) = map OnData rows ++ OnEnd :: later ->
   fst (readConfig filePath st) = Returned (FulfilledWith (final_config rows)))
  /\ (fst (csv_stream filePath (world st)) = map OnData rows ++ OnError error :: later ->
      fst (readConfig filePath st) = Returned (RejectedWith error))
  /\ (fst (csv_stream filePath (world st)) = map OnData rows ->
      fst (readConfig filePath st) = Returned Pending)
  /\ trace (snd (readConfig filePath st)) = trace st
  /\ pending (snd (readConfig filePath st)) = pending st.
Proof.
  unfold readConfig. destruct (csv_stream filePath (world st)) as [events w]. cbn [fst snd].
  repeat split.
  - intros ->. rewrite listen_rows, fold_on_data. reflexivity.
  - intros ->. now rewrite listen_rows.
  - intros ->. rewrite <- (app_nil_r (map OnData rows)). now rewrite listen_rows.
Qed.

Lemma leading_digits_numeral (d : Decimal.uint) (rest : string) :
  no_leading_digit rest ->
  forall acc : nat,
    leading_digits (NilEmpty.string_of_uint d +:+ rest) (N.of_nat acc)
    = N.of_nat (Nat.of_uint_acc d acc).
Proof.
  intros Hrest. induction d; intros acc; simpl Nat.of_uint_acc;
    try (cbn [NilEmpty.string_of_uint String.append leading_digits];
         match goal with |- context [digit_of ?c] =>
           let v := eval vm_compute in (digit_of c) in change (digit_of c) with v
         end;
         cbv iota beta; rewrite <- IHd; f_equal;
         rewrite Nat.tail_mul_spec; lia).
  simpl. destruct rest as [|c rest]; [reflexivity|].
  simpl in Hrest. simpl. now rewrite Hrest.
Qed.

Lemma to_uint_digits (n : nat) :
  exists c s, index_key n = String c s /\ digit_of c <> None
              /\ is_white_space c = false /\ c <> "-"%char /\ c <> "+"%char.
Proof.
  unfold index_key.
  assert (H : Nat.to_uint n <> Decimal.Nil).
  { rewrite <- (DecimalNat.Unsigned.of_to n) at 1.
    rewrite DecimalNat.Unsigned.to_of. unfold Decimal.unorm.
    destruct (Decimal.nzhead _); discriminate. }
  destruct (Nat.to_uint n); [now contradiction H| ..];
    eexists _, _; (split; [reflexivity|]); repeat split; discriminate.
Qed.

(** What [parseInt] makes of a decimal numeral followed by anything else. *)
Lemma parseInt10_numeral (n : nat) (rest : string) :
  no_leading_digit rest ->
  parseInt10 (Some (index_key n +:+ rest)) = Num (Z.of_nat n).
Proof.
  intros Hrest.
  destruct (to_uint_digits n) as (c & s & Hkey & Hdigit & Hspace & Hminus & Hplus).
  pose proof (leading_digits_numeral (Nat.to_uint n) rest Hrest 0) as Hvalue.
  fold (index_key n) in Hvalue. change (Nat.of_uint_acc (Nat.to_uint n) 0) with
    (Nat.of_uint (Nat.to_uint n)) in Hvalue.
  rewrite DecimalNat.Unsigned.of_to in Hvalue. simpl N.of_nat in Hvalue.
  unfold parseInt10. cbn [js_string]. rewrite Hkey in *. cbn [String.append trim_start].
  rewrite Hspace.
  assert (Hun : parse_unsigned false (String c (s +:+ rest)) = Num (Z.of_nat n)).
  { unfold parse_unsigned. destruct (digit_of c); [|now contradiction Hdigit].
    cbn [String.append] in Hvalue. rewrite Hvalue. now rewrite nat_N_Z. }
  destruct c as [[] [] [] [] [] [] [] []]; try exact Hun;
    solve [now contradiction Hminus | now contradiction Hplus].
Qed.

(** X9. The depth of the configuration is what [parseInt] makes of the cell:
    a decimal numeral gives its value, and whatever follows the digits is
    ignored (units, a fraction, an exponent); a row without the column, or an
    empty cell, gives [NaN]. *)
Theorem on_data_maxDepth (row : CsvRow.t) (config : Config.t) (n : nat) (rest : string) :
  (CsvRow.maxDepth row = Some (index_key n +:+ rest) -> no_leading_digit rest ->
   (Z.of_nat n < 2 ^ 53)%Z ->
   Config.maxDepth (on_data row config) = Some (Num (Z.of_nat n)))
  /\ (CsvRow.maxDepth row = None -> Config.maxDepth (on_data row config) = Some NaN)
  /\ (CsvRow.maxDepth row = Some EmptyString ->
      Config.maxDepth (on_data row config) = Some NaN).
Proof.
  unfold on_data. cbn [Config.maxDepth]. repeat split.
  - intros -> Hrest _. now rewrite parseInt10_numeral.
  - intros ->. reflexivity.
  - intros ->. reflexivity.
Qed.

(** *** The entry point *)

Lemma prefix_app (pattern rest : string) : String.prefix pattern (pattern +:+ rest) = true.
Proof.
  induction pattern as [|c pattern IH]; cbn [String.prefix String.append]; [now destruct rest|].
  destruct (ascii_dec c c); [exact IH | congruence].
Qed.

Lemma skip_app (pattern rest : string) : skip (String.length pattern) (pattern +:+ rest) = rest.
Proof. induction pattern as [|c pattern IH]; simpl; [reflexivity | exact IH]. Qed.

Lemma replace_first_eq (pattern replacement s : string) :
  replace_first pattern replacement s
  = if String.prefix pattern s then replacement +:+ skip (String.length pattern) s
    else match s with
         | EmptyString => EmptyString
         | String c rest => String c (replace_first pattern replacement rest)
         end.
Proof. destruct s; reflexivity. Qed.

Lemma occurs_eq (pattern s : string) :
  occurs pattern s
  = if String.prefix pattern s then true
    else match s with
         | EmptyString => false
         | String _ rest => occurs pattern rest
         end.
Proof. destruct s; reflexivity. Qed.

Lemma replace_first_absent (pattern replacement s : string) :
  occurs pattern s = false -> replace_first pattern replacement s = s.
Proof.
  induction s as [|c s IH]; rewrite occurs_eq, replace_first_eq;
    destruct (String.prefix pattern _); try discriminate; [reflexivity|].
  intros H. now rewrite IH.
Qed.

(** [.dot] does not overlap itself: it cannot begin inside a text and end in
    a [.dot] that follows the text. *)
Lemma prefix_dot_app (a b : string) :
  a <> EmptyString -> String.prefix ".dot" a = false ->
  String.prefix ".dot" (a +:+ ".dot" +:+ b) = false.
Proof.
  destruct a as [|c [|x [|y [|z a]]]]; cbn [String.prefix String.append]; intros Hne H;
    repeat match goal with
           | |- context [ascii_dec ?u ?v] => destruct (ascii_dec u v)
           | H : context [ascii_dec ?u ?v] |- _ => destruct (ascii_dec u v)
           end; subst; try reflexivity; try discriminate; try congruence.
  all: destruct a; cbn [String.prefix String.append] in *; try discriminate; try reflexivity.
Qed.

Lemma replace_first_dot (a b replacement : string) :
  occurs ".dot" a = false ->
  replace_first ".dot" replacement (a +:+ ".dot" +:+ b) = a +:+ replacement +:+ b.
Proof.
  induction a as [|c a IH]; intros H.
  - cbn [String.append]. rewrite replace_first_eq.
    change (String "." (String "d" (String "o" (String "t" b)))) with (".dot" +:+ b).
    now rewrite prefix_app, skip_app.
  - rewrite occurs_eq in H.
    destruct (String.prefix ".dot" (String c a)) eqn:Hp; [discriminate|].
    pose proof (prefix_dot_app (String c a) b ltac:(discriminate) Hp) as Hno.
    cbn [String.append] in *. rewrite replace_first_eq, Hno. now rewrite IH.
Qed.

(** X10. The base name that the entry point hands to the pipeline is the
    output path without its first [.dot], wherever that stands: a path
    without [.dot] is kept whole, so that the pipeline writes [{path}.dot]
    beside the file the entry point wrote; a path [{base}.dot] gives
    [{base}], so that the pipeline writes the same file again; and of several
    [.dot] only the first goes. *)
Theorem without_dot_first_occurrence (path : string) (st : state) :
  (occurs ".dot" path = false -> without_dot (Some path) st = (Returned path, st))
  /\ (forall base, path = base +:+ ".dot" -> occurs ".dot" base = false ->
      without_dot (Some path) st = (Returned base, st))
  /\ (forall a b, path = a +:+ ".dot" +:+ b -> occurs ".dot" a = false ->
      without_dot (Some path) st = (Returned (a +:+ b), st)).
Proof.
  unfold without_dot, ret. repeat split.
  - intros H. now rewrite replace_first_absent.
  - intros base -> H.
    pose proof (replace_first_dot base EmptyString EmptyString H) as Hr.
    cbn [String.append] in Hr. rewrite append_empty_r in Hr.
    change (String "." (String "d" (String "o" (String "t" EmptyString)))) with ".dot" in Hr.
    now rewrite Hr.
  - intros a b -> H.
    pose proof (replace_first_dot a b EmptyString H) as Hr.
    cbn [String.append] in Hr. cbn [String.append]. now rewrite Hr.
Qed.

(** The entry point once the configuration is there: the resolution, then
    what the sequence it returned decides. *)
Lemma main_resolved (fuel : nat) (st : state) (events : list stream_event) (w : W)
  (config : Config.t) :
  csv_stream "./config.csv" (world st) = (events, w) ->
  listen events Config.empty = FulfilledWith config ->
  main fuel st
  = match getDependencies fuel (js_string (Config.packageName config)) 1
            (js_number (Config.maxDepth config)) (js_string (Config.repositoryUrl config))
            (mkState w (trace st) (pending st)) with
    | (Returned [], st1) =>
        (Returned Completed,
         mkState (world st1) (trace st1 ++ [nothing_resolved]) (pending st1))
    | (Returned (node :: nodes), st1) =>
        let dotGraph := generateDotGraph (node :: nodes) (js_string (Config.packageName config)) in
        match write_file (Config.outputFilePath config) dotGraph st1 with
        | (Returned _, st2) =>
            match Config.outputFilePath config with
            | Some path =>
                (Returned Completed,
                 snd (generateImageFromDot dotGraph (replace_first ".dot" EmptyString path)
                        (Config.visualizerPath config)
                        (mkState (world st2) (trace st2 ++ [graph_notice dotGraph])
                                 (pending st2))))
            | None =>
                (Returned Completed,
                 mkState (world st2)
                   (trace st2 ++ [graph_notice dotGraph;
                                  main_failure_report (cannot_read VUndefined "replace")])
                   (pending st2))
            end
        | (Thrown e, st2) =>
            (Returned Completed,
             mkState (world st2) (trace st2 ++ [main_failure_report (message e)]) (pending st2))
        | (OutOfFuel, st2) => (OutOfFuel, st2)
        end
    | (Thrown e, st1) =>
        (Returned Completed,
         mkState (world st1) (trace st1 ++ [main_failure_report (message e)]) (pending st1))
    | (OutOfFuel, st1) => (OutOfFuel, st1)
    end.
Proof.
  intros Hcsv Hlisten.
  unfold main. unfold try_catch at 1. unfold bind at 1. unfold readConfig.
  rewrite Hcsv, Hlisten. cbn [await]. unfold bind at 1.
  destruct (getDependencies _ _ _ _ _ _) as [[[|node nodes]|e|] st1]; try reflexivity.
  cbn [List.length Nat.eqb]. cbv zeta. unfold bind at 1.
  destruct (write_file _ _ st1) as [[[]|e|] st2]; try reflexivity.
  unfold bind at 1. unfold console_log at 1, emit at 1.
  destruct (Config.outputFilePath config) as [path|].
  - unfold bind at 1. unfold without_dot, ret at 1. unfold bind at 1.
    pose proof (generateImageFromDot_run
                  (generateDotGraph (node :: nodes) (js_string (Config.packageName config)))
                  (replace_first ".dot" EmptyString path) (Config.visualizerPath config)
                  (mkState (world st2)
                     (trace st2 ++ [graph_notice
                                      (generateDotGraph (node :: nodes)
                                         (js_string (Config.packageName config)))])
                     (pending st2))) as Hrun.
    cbv zeta in Hrun. unfold graph_notice in *.
    destruct (generateImageFromDot _ _ _ _) as [[[]|e|] st3];
      destruct (fs_writeFileSync _ _ _) as [[e'|] w3]; try discriminate; reflexivity.
  - unfold bind at 1. unfold without_dot, throw.
    unfold console_error, emit, bind, ret. cbn [world trace pending].
    unfold graph_notice, main_failure_report. now rewrite app_two.
Qed.

(** X11. The entry point never throws, whatever the environment. When
    [readConfig] rejects, the whole run is the report of that error: no
    request goes out, nothing is written, nothing is started. While the
    stream neither ends nor fails, the entry point does nothing at all. *)
Theorem main_without_configuration (fuel : nat) (st : state) (events : list stream_event)
  (w : W) :
  csv_stream "./config.csv" (world st) = (events, w) ->
  (forall e, fst (main fuel st) <> Thrown e)
  /\ (forall reason, listen events Config.empty = RejectedWith reason ->
      main fuel st
      = (Returned Completed,
         mkState w (trace st ++ [main_failure_report (message reason)]) (pending st)))
  /\ (listen events Config.empty = Pending ->
      main fuel st = (Returned Suspended, mkState w (trace st) (pending st))).
Proof.
  intros Hcsv. split; [|split].
  - intros e. unfold main. apply try_catch_never_throws.
    intros e' st1. eexists _, _. reflexivity.
  - intros reason Hlisten. unfold main, try_catch, bind, readConfig.
    rewrite Hcsv, Hlisten. reflexivity.
  - intros Hlisten. unfold main, try_catch, bind, readConfig.
    rewrite Hcsv, Hlisten. reflexivity.
Qed.

(** X12. When the resolution returns the empty sequence (the package has no
    dependencies, or its fetch failed), the entry point prints its notice and
    ends: since the configuration was read it has written no file and
    started no process, and no callback is left behind. *)
Theorem main_nothing_resolved (fuel : nat) (st st1 : state) (events : list stream_event)
  (w : W) (config : Config.t) :
  csv_stream "./config.csv" (world st) = (events, w) ->
  listen events Config.empty = FulfilledWith config ->
  getDependencies fuel (js_string (Config.packageName config)) 1
    (js_number (Config.maxDepth config)) (js_string (Config.repositoryUrl config))
    (mkState w (trace st) (pending st)) = (Returned [], st1) ->
  main fuel st
  = (Returned Completed, mkState (world st1) (trace st1 ++ [nothing_resolved]) (pending st1))
  /\ exists ext,
       trace st1 ++ [nothing_resolved] = trace st ++ ext
       /\ writes ext = [] /\ commands ext = []
       /\ pending st1 = pending st.
Proof.
  intros Hcsv Hlisten Hdeps.
  rewrite (main_resolved fuel st events w config Hcsv Hlisten), Hdeps.
  split; [reflexivity|].
  pose proof (getDependencies_resolver_step fuel (js_string (Config.packageName config)) 1
                (js_number (Config.maxDepth config)) (js_string (Config.repositoryUrl config))
                (mkState w (trace st) (pending st))) as Hstep.
  rewrite Hdeps in Hstep. destruct Hstep as [(ext & Htr & Hall) Hpending].
  cbn [snd trace pending] in *.
  destruct (resolver_events_quiet ext Hall) as [Hc Hw].
  exists (ext ++ [nothing_resolved]). split; [now rewrite Htr, app_assoc|].
  unfold writes, commands in *. rewrite !flat_map_app, Hc, Hw. auto.
Qed.


(** X16. From its first write on, a run of the whole program is a run of the
    pipeline on the graph text, the base name and the configured visualizer:
    the entry point adds nothing after the pipeline's body, and the callbacks
    that the body leaves run as they do for the pipeline alone. *)
Theorem run_ends_as_pipeline (fuel : nat) (st st1 : state) (events : list stream_event)
  (w w2 : W) (config : Config.t) (node : DependencyNode) (nodes : list DependencyNode)
  (path : string) :
  csv_stream "./config.csv" (world st) = (events, w) ->
  listen events Config.empty = FulfilledWith config ->
  getDependencies fuel (js_string (Config.packageName config)) 1
    (js_number (Config.maxDepth config)) (js_string (Config.repositoryUrl config))
    (mkState w (trace st) (pending st)) = (Returned (node :: nodes), st1) ->
  Config.outputFilePath config = Some path ->
  fs_writeFileSync path
    (generateDotGraph (node :: nodes) (js_string (Config.packageName config))) (world st1)
  = (None, w2) ->
  let dotGraph := generateDotGraph (node :: nodes) (js_string (Config.packageName config)) in
  let base := replace_first ".dot" EmptyString path in
  let written :=
    mkState w2 (trace st1 ++ [WriteFile path dotGraph "utf8"; graph_notice dotGraph])
            (pending st1) in
  run fuel st
  = (match fst (render fuel dotGraph base (Config.visualizerPath config) written) with
     | Returned _ => Returned Completed
     | Thrown e => Thrown e
     | OutOfFuel => OutOfFuel
     end,
     snd (render fuel dotGraph base (Config.visualizerPath config) written)).
Proof.
  intros Hcsv Hlisten Hdeps Hpath Hwrite dotGraph base written. subst dotGraph base written.
  unfold run. unfold bind at 1.
  rewrite (main_resolved fuel st events w config Hcsv Hlisten), Hdeps. cbv zeta.
  rewrite Hpath. unfold write_file, writeFileSync. rewrite Hwrite.
  cbn [world trace pending]. rewrite app_two.
  unfold render, bind, ret.
  match goal with |- context [generateImageFromDot ?t ?b ?v ?s] =>
    pose proof (generateImageFromDot_returns t b v s) as Hbody;
    destruct (generateImageFromDot t b v s) as [[[]|e|] st2]
  end; simpl in Hbody; try discriminate.
  cbn [snd].
  destruct (event_loop fuel st2) as [[[]|e|] st3]; reflexivity.
Qed.

(** X14. When the write of the graph text to the output path fails (the disk
    refuses it, or the configuration has no output path), the entry point
    reports that error and ends: the pipeline is not entered, so that no
    second write is tried and no conversion is started. *)
Theorem main_write_fails (fuel : nat) (st st1 : state) (events : list stream_event)
  (w : W) (config : Config.t) (node : DependencyNode) (nodes : list DependencyNode) :
  csv_stream "./config.csv" (world st) = (events, w) ->
  listen events Config.empty = FulfilledWith config ->
  getDependencies fuel (js_string (Config.packageName config)) 1
    (js_number (Config.maxDepth config)) (js_string (Config.repositoryUrl config))
    (mkState w (trace st) (pending st)) = (Returned (node :: nodes), st1) ->
  let dotGraph := generateDotGraph (node :: nodes) (js_string (Config.packageName config)) in
  (forall path e w2,
      Config.outputFilePath config = Some path ->
      fs_writeFileSync path dotGraph (world st1) = (Some e, w2) ->
      main fuel st
      = (Returned Completed,
         mkState w2
           (trace st1 ++ [WriteFile path dotGraph "utf8"; main_failure_report (message e)])
           (pending st1)))
  /\ (Config.outputFilePath config = None ->
      main fuel st
      = (Returned Completed,
         mkState (world st1) (trace st1 ++ [main_failure_report invalid_path])
                 (pending st1))).
Proof.
  intros Hcsv Hlisten Hdeps dotGraph. subst dotGraph.
  rewrite (main_resolved fuel st events w config Hcsv Hlisten), Hdeps. cbv zeta.
  split.
  - intros path e w2 Hpath Hwrite. rewrite Hpath. unfold write_file, writeFileSync.
    rewrite Hwrite. cbn [world trace pending]. now rewrite app_two.
  - intros Hpath. rewrite Hpath. reflexivity.
Qed.

(** X15. A configuration whose depth is [NaN] (a row without the column, or
    no row at all) leaves the resolution without bound: against a registry
    in which every package declares a dependency the entry point never gets
    to its end. *)
Theorem main_unbounded (fuel : nat) (st : state) (events : list stream_event) (w : W)
  (config : Config.t) :
  csv_stream "./config.csv" (world st) = (events, w) ->
  listen events Config.empty = FulfilledWith config ->
  js_number (Config.maxDepth config) = NaN ->
  (forall url w', exists entry entries,
      declared_entries (fst (axios_get url w')) = inr (entry :: entries)) ->
  fst (main fuel st) = OutOfFuel.
Proof.
  intros Hcsv Hlisten Hnan Hdeclares.
  rewrite (main_resolved fuel st events w config Hcsv Hlisten), Hnan.
  destruct (getDependencies_NaN_levels fuel Hdeclares (js_string (Config.packageName config)) 1
              (js_string (Config.repositoryUrl config)) (mkState w (trace st) (pending st)))
    as [Hout _].
  destruct (getDependencies _ _ _ _ _ _) as [[deps|e|] st1]; simpl in Hout;
    try discriminate. reflexivity.
Qed.

End Program.

Arguments getDependencies {W} axios_get cannot_read fuel packageName depth maxDepth repositoryUrl.
Arguments generateImageFromDot {W} fs_writeFileSync dotString outputFilePath visualizerPath.
Arguments event_loop {W} child_process fuel.
Arguments render {W} fs_writeFileSync child_process fuel dotString outputFilePath visualizerPath.
Arguments readConfig {W} csv_stream filePath.
Arguments run_callback {W} cb r.
Arguments without_dot {W} cannot_read path.
Arguments main {W} axios_get fs_writeFileSync cannot_read csv_stream invalid_path fuel.
Arguments run {W} axios_get fs_writeFileSync child_process cannot_read csv_stream invalid_path fuel.

(** *** The serializer on the heap *)

Lemma for_of_state {W A B} (items : list A) (body : A -> B -> M W B) :
  (forall x acc st, snd (body x acc st) = st) ->
  forall acc st, snd (for_of items body acc st) = st.
Proof.
  intros Hb. induction items as [|x items IH]; intros acc st; simpl; [reflexivity|].
  unfold bind. specialize (Hb x acc st).
  destruct (body x acc st) as [[acc'|e|] st1]; simpl in *; subst st1; auto.
Qed.

Lemma read_node_state (dep : ref) (st : state heap) : snd (Store.read_node dep st) = st.
Proof. unfold Store.read_node. destruct (nth_error _ _) as [[|]|]; reflexivity. Qed.

Lemma read_array_state (array : ref) (st : state heap) : snd (Store.read_array array st) = st.
Proof. unfold Store.read_array. destruct (nth_error _ _) as [[|]|]; reflexivity. Qed.

Lemma addDependencies_state (fuel : nat) :
  forall dep parent graph st, snd (Store.addDependencies fuel dep parent graph st) = st.
Proof.
  induction fuel as [|fuel IH]; intros dep parent graph st; simpl; [reflexivity|].
  unfold bind at 1. pose proof (read_node_state dep st) as Hn.
  destruct (Store.read_node dep st) as [[node|e|] st1]; simpl in Hn; subst st1; try reflexivity.
  unfold bind at 1. pose proof (read_array_state (snd node) st) as Ha.
  destruct (Store.read_array (snd node) st) as [[elements|e|] st1]; simpl in Ha; subst st1;
    try reflexivity.
  apply for_of_state. intros subDep g st0. apply IH.
Qed.

Lemma generateDotGraph_state (fuel : nat) (dependencies : ref) (packageName : string)
  (st : state heap) :
  snd (Store.generateDotGraph fuel dependencies packageName st) = st.
Proof.
  unfold Store.generateDotGraph. unfold bind at 1.
  pose proof (read_array_state dependencies st) as Ha.
  destruct (Store.read_array dependencies st) as [[elements|e|] st1]; simpl in Ha; subst st1;
    try reflexivity.
  unfold bind at 1.
  match goal with |- context [for_of ?items ?body ?acc st] =>
    pose proof (for_of_state items body
                  (fun dep g st0 => addDependencies_state fuel dep packageName g st0) acc st) as Hl;
    destruct (for_of items body acc st) as [[g|e|] st1]
  end; simpl in Hl; subst st1; reflexivity.
Qed.

Lemma node_in_children (h : heap) (n : string) (below : list DependencyNode) (r : ref) :
  node_in h (mkNode n below) r
  <-> exists d refs,
        nth_error h r = Some (NodeObject n d)
        /\ nth_error h d = Some (ArrayObject refs)
        /\ nodes_in h below refs.
Proof.
  assert (Hall : forall below refs,
             (fix all (below : list DependencyNode) (refs : list ref) : Prop :=
                match below, refs with
                | [], [] => True
                | b :: below', r' :: refs' => node_in h b r' /\ all below' refs'
                | _, _ => False
                end) below refs <-> nodes_in h below refs).
  { clear. induction below as [|b below IH]; intros [|r refs]; simpl; try tauto.
    now rewrite IH. }
  simpl. split; intros (d & refs & H1 & H2 & H3); exists d, refs;
    (split; [exact H1|]); (split; [exact H2|]); now apply Hall.
Qed.

(** A loop over references to nodes, each of whose calls does what the
    function on trees does, does what the loop over the trees does. *)
Lemma for_of_addDependencies (fuel : nat) (parent : string) (st : state heap) :
  forall below refs,
    Forall (fun d => forall fuel r parent graph,
                node_in (world st) d r -> (height d <= fuel)%nat ->
                Store.addDependencies fuel r parent graph st
                = (Returned (addDependencies d parent graph), st)) below ->
    nodes_in (world st) below refs ->
    (forest_height below <= fuel)%nat ->
    forall graph,
      for_of refs (fun subDep g => Store.addDependencies fuel subDep parent g) graph st
      = (Returned (fold_left (fun g d => addDependencies d parent g) below graph), st).
Proof.
  induction below as [|d below IH]; intros refs Hall Hin Hfuel graph;
    destruct refs as [|r refs]; simpl in Hin; try contradiction.
  - reflexivity.
  - destruct Hin as [Hd Hrest]. inversion Hall as [|? ? Hhead Htail]; subst.
    simpl in Hfuel. simpl. unfold bind.
    rewrite Hhead by (assumption || lia).
    apply IH; [assumption | assumption | lia].
Qed.

Lemma addDependencies_refines (dep : DependencyNode) :
  forall (st : state heap) fuel r parent graph,
    node_in (world st) dep r -> (height dep <= fuel)%nat ->
    Store.addDependencies fuel r parent graph st
    = (Returned (addDependencies dep parent graph), st).
Proof.
  induction dep as [n below IH] using DependencyNode_forall_ind.
  intros st fuel r parent graph Hin Hfuel.
  apply node_in_children in Hin as (d & refs & Hr & Hd & Hbelow).
  destruct fuel as [|fuel]; [simpl in Hfuel; lia|].
  simpl in Hfuel. simpl Store.addDependencies.
  unfold bind at 1. unfold Store.read_node. rewrite Hr. cbn [fst snd].
  unfold bind at 1. unfold Store.read_array. rewrite Hd.
  rewrite (for_of_addDependencies fuel n st below refs); [reflexivity | | assumption | ].
  - apply Forall_forall. intros b Hb f r0 p g Hin Hf.
    rewrite Forall_forall in IH. now apply IH.
  - unfold forest_height. lia.
Qed.

(** On a heap that holds the forest, the function on references returns what
    the function on trees returns. *)
Lemma generateDotGraph_refines (fuel : nat) (forest : list DependencyNode) (dependencies : ref)
  (packageName : string) (st : state heap) :
  forest_in (world st) forest dependencies -> (forest_height forest <= fuel)%nat ->
  Store.generateDotGraph fuel dependencies packageName st
  = (Returned (generateDotGraph forest packageName), st).
Proof.
  intros (refs & Hr & Hin) Hfuel.
  unfold Store.generateDotGraph. unfold bind at 1. unfold Store.read_array. rewrite Hr.
  unfold bind at 1.
  rewrite (for_of_addDependencies fuel packageName st forest refs); [reflexivity | | assumption | assumption].
  apply Forall_forall. intros d _ f r p g. apply addDependencies_refines.
Qed.

(** C8. [generateDotGraph] is a pure, deterministic function of the forest
    and the root name. A call leaves the heap that holds the forest, and the
    rest of the state, as they were: it writes to no object and does no I/O.
    A second call on the same arguments therefore ends as the first did. And
    what a call returns is fixed by the forest and the root name alone:
    wherever and however the forest stands in the heap, it is the text that
    the function on trees gives for them. *)
Theorem generateDotGraph_pure (fuel : nat) (dependencies : ref) (packageName : string)
  (st : state heap) :
  snd (Store.generateDotGraph fuel dependencies packageName st) = st
  /\ fst (Store.generateDotGraph fuel dependencies packageName
            (snd (Store.generateDotGraph fuel dependencies packageName st)))
     = fst (Store.generateDotGraph fuel dependencies packageName st)
  /\ (forall forest,
        forest_in (world st) forest dependencies -> (forest_height forest <= fuel)%nat ->
        fst (Store.generateDotGraph fuel dependencies packageName st)
        = Returned (generateDotGraph forest packageName)).
Proof.
  split; [apply generateDotGraph_state|]. split.
  - now rewrite generateDotGraph_state.
  - intros forest Hin Hfuel. now rewrite (generateDotGraph_refines fuel forest).
Qed.

(** *** The scenarios, run *)

(** The unit test of [getDependencies]: the third request resolves to
    [undefined], the read of its [data] throws, and [dep2] is a leaf. *)
Example getDependencies_jest :
  getDependencies jest_axios_get v8_cannot_read 2 "example-package" 1 (Num 2)
    "https://api.example.com" (mkState 0 [] [])
  = (Returned [mkNode "dep1" []; mkNode "dep2" []],
     mkState 3
       [HttpGet "https://api.example.com/example-package/latest";
        HttpGet "https://api.example.com/dep1/latest";
        HttpGet "https://api.example.com/dep2/latest";
        ConsoleError ["Ошибка при загрузке зависимостей пакета dep2:";
                      "Cannot read properties of undefined (reading 'data')"]]
       []).
Proof. vm_compute. reflexivity. Qed.

(** A package that cannot be fetched is a leaf; its sibling is resolved. *)
Example getDependencies_flaky :
  getDependencies flaky_registry v8_cannot_read 3 "app" 1 (Num 3)
    "https://registry.test" (mkState 0 [] [])
  = (Returned [mkNode "left" []; mkNode "right" [mkNode "leaf" []]],
     mkState 4
       [HttpGet "https://registry.test/app/latest";
        HttpGet "https://registry.test/left/latest";
        ConsoleError ["Ошибка при загрузке зависимостей пакета left:";
                      "Request failed with status code 503"];
        HttpGet "https://registry.test/right/latest";
        HttpGet "https://registry.test/leaf/latest"]
       []).
Proof. vm_compute. reflexivity. Qed.

(** The unit test of [generateImageFromDot]. *)
Example render_jest :
  render disk_writable tools_succeed 2 "digraph example-package { }" "output"
    (Some "customPathToDot") (mkState tt [] [])
  = (Returned tt,
     mkState tt
       [WriteFile "output.dot" "digraph example-package { }" "utf8";
        ConsoleLog ["DOT-граф сохранен в: output.dot"];
        Exec "customPathToDot -Tsvg output.dot -o output.svg";
        ConsoleLog ["SVG-изображение графа сохранено в: output.svg"];
        Exec "magick output.svg output.png";
        ConsoleLog ["PNG-изображение графа сохранено в: output.png"]]
       []).
Proof. vm_compute. reflexivity. Qed.

(** The vector conversion fails: one report, and no raster conversion. *)
Example render_tools_missing :
  render disk_writable tools_missing 2 "digraph example-package { }" "output"
    (Some "customPathToDot") (mkState tt [] [])
  = (Returned tt,
     mkState tt
       [WriteFile "output.dot" "digraph example-package { }" "utf8";
        ConsoleLog ["DOT-граф сохранен в: output.dot"];
        Exec "customPathToDot -Tsvg output.dot -o output.svg";
        ConsoleError ["Ошибка при выполнении команды для SVG: Command failed: customPathToDot -Tsvg output.dot -o output.svg"]]
       []).
Proof. vm_compute. reflexivity. Qed.

(** The serializer on the heap of two leaves that share their empty array. *)
Example generateDotGraph_on_heap :
  Store.generateDotGraph 1 0 "example-package" (mkState two_leaves_heap [] [])
  = (Returned (generateDotGraph [mkNode "dep1" []; mkNode "dep2" []] "example-package"),
     mkState two_leaves_heap [] []).
Proof. vm_compute. reflexivity. Qed.

(** Keys that are array indices come first in [Object.entries]. *)
Example own_props_order :
  map fst (own_props [("b", VNull); ("10", VNull); ("2", VNull); ("a", VNull); ("01", VNull)])
  = ["2"; "10"; "b"; "a"; "01"].
Proof. reflexivity. Qed.

(** *** The theorems at the scenarios *)

Lemma getDependencies_depth_bound_witness :
  (1 <= 2)%Z /\ (Z.to_nat 2 <= 2)%nat
  /\ exists tree st',
      getDependencies example_registry v8_cannot_read 2 "example-package" 1 (Num 2)
        "https://api.example.com" (mkState 0 [] []) = (Returned tree, st')
      /\ (forall k, (Z.to_nat 2 < k)%nat -> nodes_at_depth k tree = [])
      /\ (forall node, In node (nodes_at_depth (Z.to_nat 2) tree) -> dependencies node = []).
Proof.
  split; [lia|]. split; [simpl; lia|].
  apply (getDependencies_depth_bound nat example_registry v8_cannot_read 2 2
           "example-package" "https://api.example.com" (mkState 0 [] [])).
  - lia.
  - simpl. lia.
Defined.

Lemma getDependencies_never_raises_witness :
  (levels 1 3 <= 3)%nat /\ (1 <= 3)%Z
  /\ exists tree st',
      getDependencies flaky_registry v8_cannot_read 3 "app" 1 (Num 3)
        "https://registry.test" (mkState 0 [] []) = (Returned tree, st')
      /\ map name tree = ["left"; "right"].
Proof.
  assert (Hfuel : (levels 1 3 <= 3)%nat) by (vm_compute; lia).
  assert (Hdepth : (1 <= 3)%Z) by lia.
  split; [exact Hfuel|]. split; [exact Hdepth|].
  destruct (proj1 (proj2 (getDependencies_never_raises nat flaky_registry v8_cannot_read 3
                            "app" 1 (Num 3) "https://registry.test" (mkState 0 [] [])))
              3%Z eq_refl Hfuel)
    as (tree & st' & Hrun & Hcases).
  exists tree, st'. split; [exact Hrun|].
  exact (proj1 (Hcases Hdepth)).
Defined.

(** A body cut short is no JSON; it arrives as a text, nothing is thrown and
    nothing is reported: the trace holds the request alone. *)
Lemma getDependencies_unparsed_body_unreported :
  getDependencies truncated_registry v8_cannot_read 1 "app" 1 (Num 1)
    "https://registry.test" (mkState 0 [] [])
  = (Returned [], mkState 1 [HttpGet "https://registry.test/app/latest"] [])
  /\ ~ (exists args,
          In (ConsoleError args)
             (trace (snd (getDependencies truncated_registry v8_cannot_read 1 "app" 1 (Num 1)
                            "https://registry.test" (mkState 0 [] []))))).
Proof.
  split; [vm_compute; reflexivity|].
  intros (args & Hin). vm_compute in Hin. destruct Hin as [H|[]]. discriminate.
Qed.

Lemma getDependencies_one_request_witness :
  (1 <= 2)%Z /\ (levels 1 2 <= 2)%nat
  /\ exists tree st' rest,
      getDependencies example_registry v8_cannot_read 2 "example-package" 1 (Num 2)
        "https://api.example.com" (mkState 0 [] []) = (Returned tree, st')
      /\ trace st' = [] ++ HttpGet (request_url "https://api.example.com" "example-package") :: rest
      /\ requests rest = expected_requests "https://api.example.com" (levels (1 + 1) 2) tree.
Proof.
  assert (Hfuel : (levels 1 2 <= 2)%nat) by (vm_compute; lia).
  assert (Hdepth : (1 <= 2)%Z) by lia.
  split; [exact Hdepth|]. split; [exact Hfuel|].
  exact (proj2 (proj2 (getDependencies_one_request nat example_registry v8_cannot_read 2
                         "example-package" 1 (Num 2) "https://api.example.com"
                         (mkState 0 [] []))) 2%Z eq_refl Hdepth Hfuel).
Defined.

Lemma example_registry_root (w : nat) :
  declares (fst (example_registry (request_url "https://api.example.com" "example-package") w))
           (VObj [("dep1", VObj []); ("dep2", VObj [])]).
Proof. eexists _, _. split; [reflexivity|]. split; reflexivity. Defined.

Lemma example_registry_dep1 (w : nat) :
  declares (fst (example_registry (request_url "https://api.example.com" "dep1") w)) (VObj [])
  \/ declares (fst (example_registry (request_url "https://api.example.com" "dep1") w)) VUndefined.
Proof. left. eexists _, _. split; [reflexivity|]. split; reflexivity. Defined.

Lemma example_registry_dep2 (w : nat) :
  declares (fst (example_registry (request_url "https://api.example.com" "dep2") w)) (VObj [])
  \/ declares (fst (example_registry (request_url "https://api.example.com" "dep2") w)) VUndefined.
Proof. right. eexists _, _. split; [reflexivity|]. split; reflexivity. Defined.

Lemma getDependencies_two_leaves_witness :
  exists st',
    getDependencies example_registry v8_cannot_read 2 "example-package" 1 (Num 2)
      "https://api.example.com" (mkState 0 [] [])
    = (Returned [mkNode "dep1" []; mkNode "dep2" []], st')
    /\ trace st' = [] ++ [HttpGet (request_url "https://api.example.com" "example-package");
                          HttpGet (request_url "https://api.example.com" "dep1");
                          HttpGet (request_url "https://api.example.com" "dep2")].
Proof.
  apply (getDependencies_two_leaves nat example_registry v8_cannot_read 2 "example-package"
           "https://api.example.com" (mkState 0 [] [])
           example_registry_root example_registry_dep1 example_registry_dep2).
  lia.
Defined.

Lemma getDependencies_falsy_dependencies_witness :
  truthy VNull = false
  /\ js_or VNull empty_object = empty_object
  /\ getDependencies flaky_registry v8_cannot_read 1 "leaf" 3 (Num 3)
       "https://registry.test" (mkState 7 [] [])
     = (Returned [],
        mkState 8 ([] ++ [HttpGet (request_url "https://registry.test" "leaf")]) []).
Proof.
  split; [reflexivity|].
  apply (getDependencies_falsy_dependencies nat flaky_registry v8_cannot_read 0 "leaf" 3
           (Num 3) "https://registry.test" (mkState 7 [] [])
           (response_with VNull)
           (VObj [("name", VStr "pkg"); ("dependencies", VNull)]) VNull 8);
    reflexivity.
Defined.

Lemma render_stops_after_failed_svg_witness :
  exists report st',
    render disk_writable tools_missing 2 "digraph example-package { }" "output"
      (Some "customPathToDot") (mkState tt [] []) = (Returned tt, st')
    /\ st' = mkState tt
               ([] ++ [WriteFile ("output" +:+ ".dot") "digraph example-package { }" "utf8";
                       ConsoleLog ["DOT-граф сохранен в: " +:+ ("output" +:+ ".dot")];
                       Exec (svg_command (Some "customPathToDot") "output");
                       ConsoleError [report]])
               []
    /\ commands (trace st') = commands [] ++ [svg_command (Some "customPathToDot") "output"]
    /\ (~ In (Exec (png_command "output")) [] -> ~ In (Exec (png_command "output")) (trace st')).
Proof.
  apply (render_stops_after_failed_svg unit disk_writable tools_missing 2
           "digraph example-package { }" "output" (Some "customPathToDot") (mkState tt [] [])
           tt tt
           (mkExecResult
              (Some (mkError "Error"
                       ("Command failed: " +:+ svg_command (Some "customPathToDot") "output")))
              EmptyString "/bin/sh: 1: customPathToDot: not found")).
  - reflexivity.
  - lia.
  - reflexivity.
  - reflexivity.
  - left. discriminate.
Defined.

Lemma render_commands_witness :
  exists st' rest,
    render disk_writable tools_succeed 2 "digraph example-package { }" "output"
      (Some "customPathToDot") (mkState tt [] []) = (Returned tt, st')
    /\ pending st' = []
    /\ trace st' = [] ++ WriteFile "output.dot" "digraph example-package { }" "utf8" :: rest
    /\ commands rest = ["customPathToDot -Tsvg output.dot -o output.svg";
                        "magick output.svg output.png"].
Proof.
  apply (render_commands unit disk_writable tools_succeed 2 "digraph example-package { }"
           "output" (Some "customPathToDot") (mkState tt [] [])).
  - reflexivity.
  - lia.
Defined.


Lemma two_leaves_in_heap :
  forest_in two_leaves_heap [mkNode "dep1" []; mkNode "dep2" []] 0.
Proof.
  exists [1; 3]. split; [reflexivity|]. simpl.
  split; [|split; [|exact I]]; exists 2, []; (split; [reflexivity|]); (split; [reflexivity|exact I]).
Defined.

Lemma generateDotGraph_pure_witness :
  forest_in two_leaves_heap [mkNode "dep1" []; mkNode "dep2" []] 0
  /\ (forest_height [mkNode "dep1" []; mkNode "dep2" []] <= 1)%nat
  /\ snd (Store.generateDotGraph 1 0 "example-package" (mkState two_leaves_heap [] []))
     = mkState two_leaves_heap [] []
  /\ fst (Store.generateDotGraph 1 0 "example-package" (mkState two_leaves_heap [] []))
     = Returned (generateDotGraph [mkNode "dep1" []; mkNode "dep2" []] "example-package").
Proof.
  assert (Hfuel : (forest_height [mkNode "dep1" []; mkNode "dep2" []] <= 1)%nat)
    by (simpl; lia).
  split; [exact two_leaves_in_heap|]. split; [exact Hfuel|]. split.
  - exact (proj1 (generateDotGraph_pure 1 0 "example-package" (mkState two_leaves_heap [] []))).
  - exact (proj2 (proj2 (generateDotGraph_pure 1 0 "example-package"
                           (mkState two_leaves_heap [] [])))
             [mkNode "dep1" []; mkNode "dep2" []] two_leaves_in_heap Hfuel).
Defined.

(** *** The whole program, run *)

(** The configuration and the registry of the unit tests, a disk that
    accepts and tools that succeed: [output.dot] is written twice. *)
Example run_jest :
  run example_registry disk_accepts tools_run v8_cannot_read jest_csv node_invalid_path 2
    (mkState 0 [] [])
  = (Returned Completed,
     mkState 3
       [HttpGet "https://api.example.com/example-package/latest";
        HttpGet "https://api.example.com/dep1/latest";
        HttpGet "https://api.example.com/dep2/latest";
        WriteFile "output.dot"
          (generateDotGraph [mkNode "dep1" []; mkNode "dep2" []] "example-package") "utf8";
        graph_notice (generateDotGraph [mkNode "dep1" []; mkNode "dep2" []] "example-package");
        WriteFile "output.dot"
          (generateDotGraph [mkNode "dep1" []; mkNode "dep2" []] "example-package") "utf8";
        ConsoleLog ["DOT-граф сохранен в: output.dot"];
        Exec "dot -Tsvg output.dot -o output.svg";
        ConsoleLog ["SVG-изображение графа сохранено в: output.svg"];
        Exec "magick output.svg output.png";
        ConsoleLog ["PNG-изображение графа сохранено в: output.png"]]
       []).
Proof. vm_compute. reflexivity. Qed.

(** The last row decides: its depth is [NaN], which this registry survives,
    and its output path, which has no [.dot], gets one appended for the
    second write. *)
Example run_two_rows :
  fst (readConfig two_rows_csv "./config.csv" (mkState 0 [] []))
  = Returned (FulfilledWith
                (Config.make None (Some "app") (Some "graphs/app.gv") (Some NaN)
                             (Some "https://registry.test")))
  /\ (let ended := run flaky_registry disk_accepts tools_run v8_cannot_read two_rows_csv
                      node_invalid_path 4 (mkState 0 [] []) in
      fst ended = Returned Completed
      /\ writes (trace (snd ended))
         = [("graphs/app.gv",
             generateDotGraph [mkNode "left" []; mkNode "right" [mkNode "leaf" []]] "app");
            ("graphs/app.gv.dot",
             generateDotGraph [mkNode "left" []; mkNode "right" [mkNode "leaf" []]] "app")]
      /\ commands (trace (snd ended))
         = ["dot -Tsvg graphs/app.gv.dot -o graphs/app.gv.svg";
            "magick graphs/app.gv.svg graphs/app.gv.png"]).
Proof. split; [|split; [|split]]; vm_compute; reflexivity. Qed.

(** What [parseInt] makes of some cells. *)
Example parseInt10_cells :
  map parseInt10 [Some "2"; Some " 12px"; Some "-7"; Some "3.9"; Some "0x10"; Some "two";
                  Some "-"; Some EmptyString; None]
  = [Num 2; Num 12; Num (-7); Num 3; Num 0; NaN; NaN; NaN; NaN].
Proof. reflexivity. Qed.

(** [replace] takes out the first [.dot] only. *)
Example replace_first_paths :
  map (replace_first ".dot" EmptyString)
      ["output.dot"; "graphs/app.gv"; "my.dotfiles/out.dot"; "a.dot.dot"]
  = ["output"; "graphs/app.gv"; "myfiles/out.dot"; "a.dot"].
Proof. vm_compute. reflexivity. Qed.

(** *** The further theorems at the scenarios *)

Lemma loop_registry_declares (url : string) (w : nat) :
  exists entry entries,
    declared_entries v8_cannot_read (fst (loop_registry url w)) = inr (entry :: entries).
Proof. eexists _, _. reflexivity. Defined.

Lemma loop_registry_declares_loop (url : string) (w : nat) :
  exists v, declared_entries v8_cannot_read (fst (loop_registry url w)) = inr [("loop", v)].
Proof. eexists. reflexivity. Defined.

Lemma getDependencies_NaN_unbounded_witness :
  (forall d, gt d NaN = false)
  /\ fst (getDependencies loop_registry v8_cannot_read 5 "app" 1 NaN "https://registry.test"
            (mkState 0 [] [])) = OutOfFuel
  /\ exists ext,
       trace (snd (getDependencies loop_registry v8_cannot_read 5 "app" 1 NaN
                     "https://registry.test" (mkState 0 [] [])))
       = [] ++ ext
       /\ List.length (requests ext) = 5%nat.
Proof.
  exact (getDependencies_NaN_unbounded nat loop_registry v8_cannot_read 5 "app" 1
           "https://registry.test" (mkState 0 [] []) loop_registry_declares).
Defined.

Lemma getDependencies_chain_witness :
  levels 1 3 = 3%nat /\ (3 <= 3)%nat
  /\ fst (getDependencies loop_registry v8_cannot_read 3 "loop" 1 (Num 3)
            "https://registry.test" (mkState 0 [] []))
     = Returned [mkNode "loop" [mkNode "loop" [mkNode "loop" []]]].
Proof.
  split; [reflexivity|]. split; [lia|].
  apply (getDependencies_chain nat loop_registry v8_cannot_read "loop" 3
           loop_registry_declares_loop 3 "loop" 1%Z 3%Z "https://registry.test"
           (mkState 0 [] [])).
  - reflexivity.
  - lia.
Defined.

Lemma mixed_registry_declares :
  declares (fst (mixed_registry (request_url "https://registry.test" "app") 0))
           (VObj [("b", VStr "1"); ("10", VStr "1"); ("a", VStr "1"); ("2", VStr "1")]).
Proof. eexists _, _. split; [reflexivity|]. split; reflexivity. Defined.

Lemma getDependencies_children_order_witness :
  exists tree st',
    getDependencies mixed_registry v8_cannot_read 1 "app" 1 (Num 1) "https://registry.test"
      (mkState 0 [] []) = (Returned tree, st')
    /\ Permutation (map name tree) ["b"; "10"; "a"; "2"]
    /\ exists indices : list (N * (string * value)),
         map name tree = map (fun p => fst (snd p)) indices ++ ["b"; "a"]
         /\ Sorted by_index indices
         /\ Forall (fun p => array_index (fst (snd p)) = Some (fst p)) indices.
Proof.
  destruct (getDependencies_children_order nat mixed_registry v8_cannot_read 1 "app" 1 1
              "https://registry.test" (mkState 0 [] [])
              [("b", VStr "1"); ("10", VStr "1"); ("a", VStr "1"); ("2", VStr "1")])
    as (tree & st' & Hrun & Hperm & _ & Hsorted).
  - vm_compute. lia.
  - lia.
  - exact mixed_registry_declares.
  - exists tree, st'. split; [exact Hrun|]. split; [exact Hperm | exact Hsorted].
Defined.

Lemma array_registry_declares :
  declares (fst (array_registry (request_url "https://registry.test" "app") 0))
           (VArr [VStr "left-pad"; VStr "chalk"]).
Proof. eexists _, _. split; [reflexivity|]. split; reflexivity. Defined.

Lemma getDependencies_array_dependencies_witness :
  exists tree st',
    getDependencies array_registry v8_cannot_read 1 "app" 1 (Num 1) "https://registry.test"
      (mkState 0 [] []) = (Returned tree, st')
    /\ map name tree = ["0"; "1"].
Proof.
  apply (getDependencies_array_dependencies nat array_registry v8_cannot_read 1 "app" 1 1
           "https://registry.test" (mkState 0 [] []) [VStr "left-pad"; VStr "chalk"]).
  - vm_compute. lia.
  - lia.
  - exact array_registry_declares.
Defined.

Lemma getDependencies_unparsed_body_witness :
  getDependencies page_registry v8_cannot_read 1 "app" 1 (Num 1) "https://registry.test"
    (mkState 0 [] [])
  = (Returned [],
     mkState 1 ([] ++ [HttpGet (request_url "https://registry.test" "app")]) []).
Proof.
  apply (getDependencies_unparsed_body nat page_registry v8_cannot_read 0 "app" 1 (Num 1)
           "https://registry.test" (mkState 0 [] [])
           (VObj [("status", VNum (Num 200)); ("data", VStr "<!DOCTYPE html>")])
           (VStr "<!DOCTYPE html>") 1);
    try reflexivity; discriminate.
Defined.

Lemma render_one_report_witness :
  exists st' ext,
    render disk_writable tools_missing 2 "digraph example-package { }" "output"
      (Some "customPathToDot") (mkState tt [] []) = (Returned tt, st')
    /\ trace st' = [] ++ ext
    /\ reports ext = 1%nat /\ notices ext = 1%nat.
Proof.
  apply (render_one_report unit disk_writable tools_missing 2 "digraph example-package { }"
           "output" (Some "customPathToDot") (mkState tt [] [])).
  - reflexivity.
  - lia.
Defined.

Lemma readConfig_last_row_witness :
  fst (two_rows_csv "./config.csv" 0) = map OnData [jest_row; second_row] ++ OnEnd :: []
  /\ fst (readConfig two_rows_csv "./config.csv" (mkState 0 [] []))
     = Returned (FulfilledWith (final_config [jest_row; second_row])).
Proof.
  split; [reflexivity|].
  exact (proj1 (readConfig_last_row nat two_rows_csv "./config.csv" (mkState 0 [] [])
                  [jest_row; second_row] [] (mkError "Error" "unused")) eq_refl).
Defined.

Lemma on_data_maxDepth_witness :
  CsvRow.maxDepth jest_row = Some (index_key 2 +:+ EmptyString)
  /\ no_leading_digit EmptyString
  /\ (Z.of_nat 2 < 2 ^ 53)%Z
  /\ Config.maxDepth (on_data jest_row Config.empty) = Some (Num (Z.of_nat 2)).
Proof.
  assert (Hsmall : (Z.of_nat 2 < 2 ^ 53)%Z) by (vm_compute; reflexivity).
  split; [reflexivity|]. split; [exact I|]. split; [exact Hsmall|].
  exact (proj1 (on_data_maxDepth jest_row Config.empty 2 EmptyString) eq_refl I Hsmall).
Defined.

Lemma without_dot_first_occurrence_witness :
  occurs ".dot" "output" = false
  /\ without_dot v8_cannot_read (Some "output.dot") (mkState 0 [] [])
     = (Returned "output", mkState 0 [] []).
Proof.
  split; [reflexivity|].
  exact (proj1 (proj2 (without_dot_first_occurrence nat v8_cannot_read "output.dot"
                         (mkState 0 [] [])))
           "output" eq_refl eq_refl).
Defined.

Lemma main_without_configuration_witness :
  broken_csv "./config.csv" 0
  = ([OnData jest_row; OnError (mkError "Error" "Invalid Record Length"); OnEnd], 0)
  /\ main example_registry disk_accepts v8_cannot_read broken_csv node_invalid_path 2
       (mkState 0 [] [])
     = (Returned Completed,
        mkState 0 ([] ++ [main_failure_report "Invalid Record Length"]) []).
Proof.
  split; [reflexivity|].
  exact (proj1 (proj2 (main_without_configuration nat example_registry disk_accepts
                         v8_cannot_read broken_csv node_invalid_path 2 (mkState 0 [] [])
                         _ 0 eq_refl))
           (mkError "Error" "Invalid Record Length") eq_refl).
Defined.

Lemma main_nothing_resolved_witness :
  exists st1,
    getDependencies down_registry v8_cannot_read 2 "example-package" 1 (Num 2)
      "https://api.example.com" (mkState 0 [] []) = (Returned [], st1)
    /\ main down_registry disk_accepts v8_cannot_read jest_csv node_invalid_path 2
         (mkState 0 [] [])
       = (Returned Completed,
          mkState (world st1) (trace st1 ++ [nothing_resolved]) (pending st1)).
Proof.
  eexists. split; [vm_compute; reflexivity|].
  apply (proj1 (main_nothing_resolved nat down_registry disk_accepts v8_cannot_read jest_csv
                  node_invalid_path 2 (mkState 0 [] []) _ _ 0 _ eq_refl eq_refl eq_refl)).
Defined.


Lemma main_write_fails_witness :
  main example_registry disk_refuses v8_cannot_read jest_csv node_invalid_path 2
    (mkState 0 [] [])
  = (Returned Completed,
     mkState 3
       ([HttpGet "https://api.example.com/example-package/latest";
         HttpGet "https://api.example.com/dep1/latest";
         HttpGet "https://api.example.com/dep2/latest"]
          ++ [WriteFile "output.dot"
                (generateDotGraph [mkNode "dep1" []; mkNode "dep2" []] "example-package")
                "utf8";
              main_failure_report "EACCES: permission denied"])
       []).
Proof.
  exact (proj1 (main_write_fails nat example_registry disk_refuses v8_cannot_read jest_csv
                  node_invalid_path 2 (mkState 0 [] [])
                  (mkState 3
                     [HttpGet "https://api.example.com/example-package/latest";
                      HttpGet "https://api.example.com/dep1/latest";
                      HttpGet "https://api.example.com/dep2/latest"] [])
                  _ 0 _ (mkNode "dep1" []) [mkNode "dep2" []] eq_refl eq_refl eq_refl)
           "output.dot" (mkError "Error" "EACCES: permission denied") 3 eq_refl eq_refl).
Defined.

Lemma main_unbounded_witness :
  js_number (Config.maxDepth (final_config [jest_row; second_row])) = NaN
  /\ fst (main loop_registry disk_accepts v8_cannot_read two_rows_csv node_invalid_path 9
            (mkState 0 [] [])) = OutOfFuel.
Proof.
  split; [reflexivity|].
  exact (main_unbounded nat loop_registry disk_accepts v8_cannot_read two_rows_csv
           node_invalid_path 9 (mkState 0 [] []) _ 0 (final_config [jest_row; second_row])
           eq_refl eq_refl eq_refl loop_registry_declares).
Defined.

Lemma run_ends_as_pipeline_witness :
  run example_registry disk_accepts tools_run v8_cannot_read jest_csv node_invalid_path 2
    (mkState 0 [] [])
  = (Returned Completed,
     snd (render disk_accepts tools_run 2
            (generateDotGraph [mkNode "dep1" []; mkNode "dep2" []] "example-package")
            "output" (Some "dot")
            (mkState 3
               ([HttpGet "https://api.example.com/example-package/latest";
                 HttpGet "https://api.example.com/dep1/latest";
                 HttpGet "https://api.example.com/dep2/latest"]
                  ++ [WriteFile "output.dot"
                        (generateDotGraph [mkNode "dep1" []; mkNode "dep2" []]
                           "example-package") "utf8";
                      graph_notice
                        (generateDotGraph [mkNode "dep1" []; mkNode "dep2" []]
                           "example-package")])
               []))).
Proof.
  exact (run_ends_as_pipeline nat example_registry disk_accepts tools_run v8_cannot_read
           jest_csv node_invalid_path 2 (mkState 0 [] [])
           (mkState 3
              [HttpGet "https://api.example.com/example-package/latest";
               HttpGet "https://api.example.com/dep1/latest";
               HttpGet "https://api.example.com/dep2/latest"] [])
           _ 0 3 _ (mkNode "dep1" []) [mkNode "dep2" []] "output.dot"
           eq_refl eq_refl eq_refl eq_refl eq_refl).
Defined.
